(** * freddie.viewsets.sql: model-bound REST viewsets

    Shallow embedding of [src/freddie/viewsets/sql.py]: the field-driven
    query planner ([get_base_query], [build_prefetch_config]), the lookup
    resolver ([lookup_expr]), the construction-time validation
    ([validate_model], [get_validated_model_fields]), the request-body
    decoder ([serialize_request_body_for_db]) and the create / update
    orchestrators, followed by the properties of the design document. *)

From Stdlib Require Import ZArith String Ascii List Lia.
From stdpp Require Import base decidable countable gmap strings list fin_maps.

#[local] Set Warnings "-clear-no-such-hyp".

(** ** Python strings *)

Module PyStr.

(** [s.endswith(suffix)] *)
Definition endswith (s suffix : string) : bool :=
  let l := list_ascii_of_string s in
  let x := list_ascii_of_string suffix in
  bool_decide (List.length x ≤ List.length l
               ∧ drop (List.length l - List.length x) l = x).

(** [s[: -n]] for a positive [n]: everything but the last [n] characters
    (the empty string when [s] is shorter than [n]). *)
Definition drop_last (n : nat) (s : string) : string :=
  let l := list_ascii_of_string s in
  string_of_list_ascii (take (List.length l - n) l).

(** [s.lower()], on ASCII letters. *)
Definition lower (s : string) : string :=
  string_of_list_ascii
    ((λ c, let n := nat_of_ascii c in
           if (65 <=? n) && (n <=? 90) then ascii_of_nat (n + 32) else c)
       <$> list_ascii_of_string s).

End PyStr.

(** ** Module constants *)

Definition FK_FIELD_POSTFIX : string := "_id".
Definition M2M_FIELD_POSTFIX : string := "_ids".

(** ** Schema metadata (the descriptors of [freddie.db.models]) *)

(** A model class is referred to by its name. *)
Abbreviation ModelRef := string.

Inductive FieldKind :=
  | PlainField
  | CharField (max_length : nat)
  | ForeignKeyField (rel_model : ModelRef).

(** A column descriptor ([DBField]): its attribute name on the model, what
    kind of column it is and its [unique] flag. *)
Record DBField := {
  fld_name : string;
  fld_kind : FieldKind;
  fld_unique : bool
}.

Record ManyToManyField := {
  m2m_name : string;
  m2m_rel_model : ModelRef
}.

(** [isinstance(f, ForeignKeyField)], giving [f.rel_model] when it holds. *)
Definition fk_rel_model (f : DBField) : option ModelRef :=
  match fld_kind f with
  | ForeignKeyField m => Some m
  | _ => None
  end.

#[global] Instance FieldKind_eq_dec : EqDecision FieldKind.
Proof. solve_decision. Defined.
#[global] Instance FieldKind_countable : Countable FieldKind.
Proof.
  refine (inj_countable'
    (λ k, match k with
          | PlainField => inl ()
          | CharField n => inr (inl n)
          | ForeignKeyField m => inr (inr m)
          end)
    (λ x, match x with
          | inl _ => PlainField
          | inr (inl n) => CharField n
          | inr (inr m) => ForeignKeyField m
          end) _).
  by intros [].
Defined.

#[global] Instance DBField_eq_dec : EqDecision DBField.
Proof. solve_decision. Defined.
#[global] Instance DBField_countable : Countable DBField.
Proof.
  refine (inj_countable'
    (λ f, (fld_name f, fld_kind f, fld_unique f))
    (λ t, {| fld_name := t.1.1; fld_kind := t.1.2; fld_unique := t.2 |}) _).
  by intros [].
Defined.

#[global] Instance ManyToManyField_eq_dec : EqDecision ManyToManyField.
Proof. solve_decision. Defined.

(** ** Python values *)

(** The values a request carries: [None], integers, strings and lists. *)
#[warnings="-register-all"] Inductive PyValue :=
  | VNone
  | VInt (z : Z)
  | VStr (s : string)
  | VList (items : list PyValue).

(** Hashable values, the elements of a Python [set]. *)
Inductive PyKey :=
  | KNone
  | KInt (z : Z)
  | KStr (s : string).

#[global] Instance PyKey_eq_dec : EqDecision PyKey.
Proof. solve_decision. Defined.
#[global] Instance PyKey_countable : Countable PyKey.
Proof.
  refine (inj_countable'
    (λ k, match k with
          | KNone => inl ()
          | KInt z => inr (inl z)
          | KStr s => inr (inr s)
          end)
    (λ x, match x with
          | inl _ => KNone
          | inr (inl z) => KInt z
          | inr (inr s) => KStr s
          end) _).
  by intros [].
Defined.

(** Type objects, compared by identity; [TOther] stands for any class
    that no modelled value is an instance of (for instance [UUID]). *)
Inductive PyType :=
  | TNoneType
  | TInt
  | TStr
  | TList
  | TOther (qualname : string).

#[global] Instance PyType_eq_dec : EqDecision PyType.
Proof. solve_decision. Defined.

(** [type(v)] *)
Definition py_type (v : PyValue) : PyType :=
  match v with
  | VNone => TNoneType
  | VInt _ => TInt
  | VStr _ => TStr
  | VList _ => TList
  end.

(** [bool(v)] *)
Definition py_truthy (v : PyValue) : bool :=
  match v with
  | VNone => false
  | VInt z => negb (z =? 0)%Z
  | VStr s => negb (String.eqb s "")
  | VList l => negb (bool_decide (l = []))
  end.

(** [hash(v)] succeeds: lists are unhashable. *)
Definition py_key (v : PyValue) : option PyKey :=
  match v with
  | VNone => Some KNone
  | VInt z => Some (KInt z)
  | VStr s => Some (KStr s)
  | VList _ => None
  end.

(** [set(v)]: the elements of a list, or the characters of a string;
    [None] stands for the [TypeError] Python raises when [v] is not
    iterable or one of its elements is unhashable. *)
Definition py_set (v : PyValue) : option (gset PyKey) :=
  match v with
  | VList items => list_to_set <$> mapM py_key items
  | VStr s => Some (list_to_set ((λ c, KStr (String c "")) <$> list_ascii_of_string s))
  | _ => None
  end.

(** ** Queries (the builder interface of [freddie.db.queries]) *)

Inductive JOIN := INNER | LEFT_OUTER | RIGHT_OUTER | FULL | FULL_OUTER | CROSS.

#[global] Instance JOIN_eq_dec : EqDecision JOIN.
Proof. solve_decision. Defined.
#[global] Instance JOIN_countable : Countable JOIN.
Proof.
  refine (inj_countable'
    (λ j, match j with
          | INNER => 0 | LEFT_OUTER => 1 | RIGHT_OUTER => 2
          | FULL => 3 | FULL_OUTER => 4 | CROSS => 5
          end)
    (λ n, match n with
          | 0 => INNER | 1 => LEFT_OUTER | 2 => RIGHT_OUTER
          | 3 => FULL | 4 => FULL_OUTER | _ => CROSS
          end) _).
  by intros [].
Defined.

(** What [get_base_query] puts into its [selected] set: a column, a whole
    related model, or the [None] a failed dictionary lookup returns. *)
Inductive Selectable :=
  | SelNone
  | SelField (f : DBField)
  | SelModel (m : ModelRef).

#[global] Instance Selectable_eq_dec : EqDecision Selectable.
Proof. solve_decision. Defined.
#[global] Instance Selectable_countable : Countable Selectable.
Proof.
  refine (inj_countable'
    (λ s, match s with
          | SelNone => inl ()
          | SelField f => inr (inl f)
          | SelModel m => inr (inr m)
          end)
    (λ x, match x with
          | inl _ => SelNone
          | inr (inl f) => SelField f
          | inr (inr m) => SelModel m
          end) _).
  by intros [].
Defined.

(** [query.join_from(src, dest, join_type)] *)
Record Join := {
  join_src : ModelRef;
  join_dest : ModelRef;
  join_type : JOIN
}.

#[global] Instance Join_eq_dec : EqDecision Join.
Proof. solve_decision. Defined.
#[global] Instance Join_countable : Countable Join.
Proof.
  refine (inj_countable'
    (λ j, (join_src j, join_dest j, join_type j))
    (λ t, {| join_src := t.1.1; join_dest := t.1.2; join_type := t.2 |}) _).
  by intros [].
Defined.

(** [field == value] *)
Inductive Expression :=
  | ExprEq (lhs : DBField) (rhs : PyValue).

Abbreviation ModelData := (gmap string PyValue).

Inductive Statement :=
  | SELECT (columns : gset Selectable)
  | INSERT (data : ModelData)
  | UPDATE (data : ModelData)
  | DELETE.

(** A query under construction. The selection and the joins come out of
    the iteration of Python sets, whose order is not specified: they are
    kept as sets. [q_where] lists the predicates, which are ANDed. *)
Record Query := {
  q_model : ModelRef;
  q_stmt : Statement;
  q_joins : gset Join;
  q_where : list Expression
}.

Definition new_query (model : ModelRef) (stmt : Statement) : Query :=
  {| q_model := model; q_stmt := stmt; q_joins := ∅; q_where := [] |}.

(** [model.select] applied to the unpacked [columns] *)
Definition select (model : ModelRef) (columns : gset Selectable) : Query :=
  new_query model (SELECT columns).

(** [model.insert], [model.update] (both applied to the unpacked [data])
    and [model.delete()] *)
Definition insert (model : ModelRef) (data : ModelData) : Query :=
  new_query model (INSERT data).
Definition update_query (model : ModelRef) (data : ModelData) : Query :=
  new_query model (UPDATE data).
Definition delete_query (model : ModelRef) : Query :=
  new_query model DELETE.

(** [query.where] applied to the unpacked [expressions] *)
Definition where_ (query : Query) (expressions : list Expression) : Query :=
  {| q_model := q_model query;
     q_stmt := q_stmt query;
     q_joins := q_joins query;
     q_where := q_where query ++ expressions |}.

(** [Prefetch(field=..., attr_name=..., ids_only=...)] *)
Record Prefetch := {
  field : ManyToManyField;
  attr_name : string;
  ids_only : bool
}.

(** ** Exceptions *)

(** An exception the storage layer raises; [DoesNotExist] is the model's
    own [DoesNotExist] class. *)
Inductive DbException :=
  | DoesNotExist
  | DatabaseError (detail : string).

Inductive Exception :=
  | AssertionError (msg : string)
  | IndexError
  | TypeError
  | ValueError
  | NotFound (msg : string)
  | Unprocessable (msg : string)
  | ServerError (msg : string)
  (** a storage exception leaving a [with db_errors_handler()] block *)
  | HandledDbError (e : DbException)
  (** a storage exception raised outside of such a block *)
  | UnhandledDbError (e : DbException).

(** The outcome of a call: [inl] is a raised exception. *)
Abbreviation Result A := (Exception + A)%type.

(** ** Models, schemas and viewsets *)

(** What the viewset and the query builder read off a model class.
    [model_fields] is the dictionary [model.fields()] in its iteration
    order; [model_backrefs] lists the foreign keys of other models to this
    one, each with the model that holds it. *)
Record ModelClass := {
  model_name : ModelRef;
  is_class : bool;            (* isinstance(model, type) *)
  is_model_subclass : bool;   (* issubclass(model, Model) *)
  has_db : bool;              (* model.db() is not None *)
  has_manager : bool;         (* model.manager is not None *)
  model_pk_field : DBField;   (* model.pk_field() *)
  model_fields : list (string * DBField);
  model_backrefs : list (ModelRef * DBField);
  manytomany : gmap string ManyToManyField;
  map_props_dependencies : gmap string (list DBField)
}.

(** What the viewset reads off its schema class. *)
Record SchemaClass := {
  schema_name : string;
  get_writable_fields : gset string;
  get_field_max_length : string → option nat;
  get_read_only_fields : gset string
}.

(** The attributes a viewset has before [GenericModelViewSet.__init__]
    runs its own checks: class attributes and what the generic base class
    provides. [class_model] is the class attribute [model]. *)
Record ViewSetClass := {
  viewset_name : string;                     (* type(self).__name__ *)
  class_model : ModelClass;
  schema : SchemaClass;
  secondary_lookup_field : option DBField;
  _pk_type_choices : list PyType;
  _component_title : string;                 (* self._component_name.title() *)
  _response_fields_full_config : list string
}.

(** A constructed viewset. *)
Record GenericModelViewSet := {
  cls : ViewSetClass;
  model : ModelClass;
  pk_field : DBField;
  _model_fields : gmap string DBField;
  _model_props_dependencies : gmap string (list DBField)
}.

(** A requested field set ([ResponseFieldsDict]): the keys of the
    dictionary in iteration order. *)
Abbreviation ResponseFieldsDict := (list string).

(** *** Construction *)

Definition validate_model (c : ViewSetClass) (model : ModelClass)
  : Result ModelClass :=
  if negb (is_class model) then
    inl (AssertionError ("Schema for " +:+ viewset_name c +:+ " must be a class"))
  else if negb (is_model_subclass model) then
    inl (AssertionError ("Schema for " +:+ viewset_name c
                         +:+ " must be subclassed from Model"))
  else if negb (has_db model) then
    inl (AssertionError (model_name (class_model c) +:+ " model database not set"))
  else if negb (has_manager model) then
    inl (AssertionError (model_name model +:+ " model database manager not set"))
  else
    match secondary_lookup_field c with
    | Some secondary =>
        if negb (1 <? List.length (_pk_type_choices c)) then
          inl (AssertionError "Secondary lookup field type must be set")
        else if negb (fld_unique secondary) then
          inl (AssertionError "Non unique secondary lookup field")
        else inr model
    | None => inr model
    end.

(** The check [get_validated_model_fields] makes on one entry of
    [model.fields()]. *)
Definition maxlength_violated (c : ViewSetClass) (field_name : string)
    (db_field : DBField) : bool :=
  match fld_kind db_field with
  | CharField max_length =>
      if bool_decide (field_name ∈ get_writable_fields (schema c)) then
        match get_field_max_length (schema c) field_name with
        | None | Some 0 => true
        | Some schema_max_length => max_length <? schema_max_length
        end
      else false
  | _ => false
  end.

Fixpoint validated_fields_loop (c : ViewSetClass)
    (items : list (string * DBField)) (fields : gmap string DBField)
  : Result (gmap string DBField) :=
  match items with
  | [] => inr fields
  | (field_name, db_field) :: rest =>
      if maxlength_violated c field_name db_field then
        inl (AssertionError (schema_name (schema c) +:+ "." +:+ field_name
               +:+ " maxlength not set or greater than DB field maxlength"))
      else validated_fields_loop c rest (<[field_name := db_field]> fields)
  end.

Definition get_validated_model_fields (c : ViewSetClass) (model : ModelClass)
  : Result (gmap string DBField) :=
  validated_fields_loop c (model_fields model) ∅.

(** [GenericModelViewSet.__init__], from the return of the base class
    initialiser on; [model] is the keyword argument, [None] by default. *)
Definition init (c : ViewSetClass) (model : option ModelClass)
  : Result GenericModelViewSet :=
  match validate_model c (default (class_model c) model) with
  | inl e => inl e
  | inr m =>
      match get_validated_model_fields c m with
      | inl e => inl e
      | inr fields =>
          inr {| cls := c;
                 model := m;
                 pk_field := model_pk_field m;
                 _model_fields := fields;
                 _model_props_dependencies := map_props_dependencies m |}
      end
  end.

(** *** Lookup and filters *)

Definition lookup_expr (self : GenericModelViewSet) (pk : PyValue)
  : Result Expression :=
  match secondary_lookup_field (cls self) with
  | Some secondary =>
      match _pk_type_choices (cls self) with
      | [] => inl IndexError
      | pk_type :: _ =>
          if bool_decide (py_type pk ≠ pk_type)
          then inr (ExprEq secondary pk)
          else inr (ExprEq (pk_field self) pk)
      end
  | None => inr (ExprEq (pk_field self) pk)
  end.

(** [FilterBy]: the items of the filter dictionary, [None] when absent. *)
Definition get_query_filters (self : GenericModelViewSet)
    (request_filter_params : option (list (string * PyValue)))
  : list Expression :=
  match request_filter_params with
  | Some params =>
      omap (λ '(field_name, value),
              match _model_fields self !! field_name with
              | Some model_field => Some (ExprEq model_field value)
              | None => None
              end) params
  | None => []
  end.

Definition apply_query_filters (self : GenericModelViewSet) (query : Query)
    (request_filter_params : option (list (string * PyValue))) : Query :=
  let filter_expressions := get_query_filters self request_filter_params in
  match filter_expressions with
  | [] => query
  | _ => where_ query filter_expressions
  end.

(** *** Joins *)

(** The foreign keys the query builder finds between [src] and [dest]:
    those of [src] that refer to [dest] or, when there is none, those of
    [dest] that refer to [src]. *)
Definition join_candidates (src : ModelClass) (dest : ModelRef) : list DBField :=
  match filter (λ f, fk_rel_model f = Some dest) (model_fields src).*2 with
  | [] => (filter (λ r, r.1 = dest) (model_backrefs src)).*2
  | refs => refs
  end.

(** The foreign key a join from [src] to [dest] is made on when the call
    names none: the one named after [dest], or else the only one. With
    no candidate, or with several and none named after [dest], there is
    no answer. *)
Definition join_condition (src : ModelClass) (dest : ModelRef) : option DBField :=
  let fk_fields := join_candidates src dest in
  match List.find (λ fk, String.eqb (fld_name fk) (PyStr.lower dest)) fk_fields with
  | Some fk => Some fk
  | None =>
      match fk_fields with
      | [fk] => Some fk
      | _ => None
      end
  end.

(** [query.join_from(src, dest, join_type)], with no join condition given:
    the query builder works it out, and raises [ValueError] when it
    cannot. *)
Definition join_from (query : Query) (src : ModelClass) (dest : ModelRef)
    (join_type : JOIN) : Result Query :=
  match join_condition src dest with
  | Some _ =>
      inr {| q_model := q_model query;
             q_stmt := q_stmt query;
             q_joins := {[ {| join_src := model_name src;
                              join_dest := dest;
                              join_type := join_type |} ]}
                        ∪ q_joins query;
             q_where := q_where query |}
  | None => inl ValueError
  end.

(** *** The query planner *)

(** The value [self._model_fields.get(name)] puts into [selected]. *)
Definition selectable_of (db_field : option DBField) : Selectable :=
  match db_field with
  | Some f => SelField f
  | None => SelNone
  end.

(** One pass of the loop of [get_base_query] over an item of
    [model_fields], on the sets [(selected, joined)]. *)
Definition plan_field (self : GenericModelViewSet)
    (acc : gset Selectable * gset ModelRef)
    (item : string * option DBField) : gset Selectable * gset ModelRef :=
  let '(selected, joined) := acc in
  let '(field_name, db_field) := item in
  match db_field with
  | None =>
      if PyStr.endswith field_name FK_FIELD_POSTFIX then
        (* Foreign key ID *)
        ({[ selectable_of
              (_model_fields self
                 !! PyStr.drop_last (String.length FK_FIELD_POSTFIX) field_name) ]}
           ∪ selected,
         joined)
      else
        (* Model property/getter method decorated with @depends_on *)
        let dependencies :=
          default [] (_model_props_dependencies self !! field_name) in
        let selected := list_to_set (SelField <$> dependencies) ∪ selected in
        let fk_dependencies := omap fk_rel_model dependencies in
        (list_to_set (SelModel <$> fk_dependencies) ∪ selected,
         list_to_set fk_dependencies ∪ joined)
  | Some db_field =>
      match fld_kind db_field with
      | ForeignKeyField rel_model =>
          (* Add related models *)
          ({[ SelModel rel_model ]} ∪ selected, {[ rel_model ]} ∪ joined)
      | _ =>
          (* Just normal DB column to select *)
          ({[ SelField db_field ]} ∪ selected, joined)
      end
  end.

Definition get_base_query (self : GenericModelViewSet)
    (fields : ResponseFieldsDict) : Result Query :=
  let model_fields :=
    (λ field_name, (field_name, _model_fields self !! field_name)) <$> fields in
  let '(selected, joined) := foldl (plan_field self) (∅, ∅) model_fields in
  let query :=
    select (model_name (model self))
      (if decide (selected = ∅) then {[ SelField (pk_field self) ]} else selected) in
  set_fold
    (λ joined_model (outcome : Result Query),
       match outcome with
       | inr query => join_from query (model self) joined_model LEFT_OUTER
       | inl e => inl e
       end)
    (inr query) joined.

(** [list(self.build_prefetch_config(fields))]: the entries the generator
    yields, in order. *)
Definition build_prefetch_config (self : GenericModelViewSet)
    (fields : ResponseFieldsDict) : list Prefetch :=
  omap
    (λ field_name,
       let attr_name := field_name in
       let ids_only := PyStr.endswith field_name M2M_FIELD_POSTFIX in
       let field_name :=
         if ids_only
         then PyStr.drop_last (String.length M2M_FIELD_POSTFIX) field_name
         else field_name in
       match manytomany (model self) !! field_name with
       | Some field =>
           Some {| field := field; attr_name := attr_name; ids_only := ids_only |}
       | None => None
       end)
    fields.

(** ** Worked example: a model with a foreign key, a computed property
    and a many-to-many relation *)

Module Inventory.

Definition id_field : DBField :=
  {| fld_name := "id"; fld_kind := PlainField; fld_unique := true |}.
Definition name_field : DBField :=
  {| fld_name := "name"; fld_kind := CharField 100; fld_unique := false |}.
Definition slug_field : DBField :=
  {| fld_name := "slug"; fld_kind := CharField 50; fld_unique := true |}.
(** The foreign key attribute [category], stored in column [category_id]. *)
Definition category_field : DBField :=
  {| fld_name := "category";
     fld_kind := ForeignKeyField "Category";
     fld_unique := false |}.
Definition tags_relation : ManyToManyField :=
  {| m2m_name := "tags"; m2m_rel_model := "Tag" |}.

Definition Item : ModelClass :=
  {| model_name := "Item";
     is_class := true;
     is_model_subclass := true;
     has_db := true;
     has_manager := true;
     model_pk_field := id_field;
     model_fields :=
       [("id", id_field); ("name", name_field); ("slug", slug_field);
        ("category", category_field)];
     model_backrefs := [];
     manytomany := {[ "tags" := tags_relation ]};
     map_props_dependencies :=
       {[ "display_name" := [name_field];
          "category_label" := [category_field] ]} |}.

Definition ItemSchema : SchemaClass :=
  {| schema_name := "ItemSchema";
     get_writable_fields := {[ "name"; "slug"; "category_id"; "tags_ids" ]};
     get_field_max_length :=
       λ f, if String.eqb f "name" then Some 100
            else if String.eqb f "slug" then Some 50 else None;
     get_read_only_fields := {[ "display_name" ]} |}.

Definition ItemViewSet : ViewSetClass :=
  {| viewset_name := "ItemViewSet";
     class_model := Item;
     schema := ItemSchema;
     secondary_lookup_field := Some slug_field;
     _pk_type_choices := [TInt; TStr];
     _component_title := "Item";
     _response_fields_full_config :=
       ["id"; "name"; "slug"; "display_name"; "category_id"; "tags_ids"] |}.

(** The instance [ItemViewSet()] that [init] returns. *)
Definition viewset : GenericModelViewSet :=
  {| cls := ItemViewSet;
     model := Item;
     pk_field := id_field;
     _model_fields :=
       <["category" := category_field]>
         (<["slug" := slug_field]>
            (<["name" := name_field]> (<["id" := id_field]> ∅)));
     _model_props_dependencies :=
       {[ "display_name" := [name_field];
          "category_label" := [category_field] ]} |}.

End Inventory.

(** ** The storage layer and the effects of a request *)

(** A fetched row: its primary key and the attributes set on it. *)
Record ModelObj := {
  obj_pk : PyValue;
  obj_attrs : gmap string PyValue
}.

Definition setattr (obj : ModelObj) (attr_name : string) (value : PyValue)
  : ModelObj :=
  {| obj_pk := obj_pk obj; obj_attrs := <[attr_name := value]> (obj_attrs obj) |}.

(** The calls a viewset makes to the storage layer. *)
Inductive DbCall :=
  | Execute (query : Query)       (* model.manager.execute(query) *)
  | Get (query : Query)           (* model.manager.get(query) *)
  | SetRelated (pk : PyValue) (field : ManyToManyField) (ids : gset PyKey)
  | GetRelated (pk : PyValue) (config : list Prefetch).

(** The calls made so far, oldest first. *)
Abbreviation Trace := (list DbCall).

(** The storage layer, as seen from the viewset: what each call returns or
    raises, given the calls made before it. *)
Record Storage := {
  on_execute : Trace → Query → DbException + PyValue;
  on_get : Trace → Query → DbException + ModelObj;
  on_set_related :
    Trace → PyValue → ManyToManyField → gset PyKey → DbException + unit;
  on_get_related :
    Trace → PyValue → list Prefetch → DbException + list (string * PyValue)
}.

(** A coroutine of the viewset: it runs from a trace, returns or raises,
    and leaves the trace extended by the calls it made. *)
Definition Action (A : Type) : Type := Trace → Result A * Trace.

Definition ret {A} (a : A) : Action A := λ tr, (inr a, tr).

Definition raise {A} (e : Exception) : Action A := λ tr, (inl e, tr).

Definition bind {A B} (m : Action A) (k : A → Action B) : Action B :=
  λ tr, match m tr with
        | (inr a, tr') => k a tr'
        | (inl e, tr') => (inl e, tr')
        end.

Declare Scope action_scope.
Delimit Scope action_scope with action.
Notation "x ← m ; k" := (bind m (λ x, k))
  (at level 20, m at level 100, k at level 200, only parsing) : action_scope.
Notation "' p ← m ; k" := (bind m (λ x, match x with p => k end))
  (at level 20, p pattern, m at level 100, k at level 200, only parsing)
  : action_scope.

(** A pure call that may raise. *)
Definition lift {A} (r : Result A) : Action A := λ tr, (r, tr).

(** A storage call: it is recorded, and its exception, if any, propagates
    as it is. *)
Definition storage_call {A} (call : DbCall) (outcome : Trace → DbException + A)
  : Action A :=
  λ tr, match outcome tr with
        | inr a => (inr a, tr ++ [call])
        | inl e => (inl (UnhandledDbError e), tr ++ [call])
        end.

(** [with db_errors_handler(): body]. A storage exception leaving the
    block is replaced by the API error the handler makes of it; other
    exceptions pass. *)
Definition db_errors_handler {A} (body : Action A) : Action A :=
  λ tr, match body tr with
        | (inl (UnhandledDbError e), tr') => (inl (HandledDbError e), tr')
        | r => r
        end.

(** [for x in xs: body(x)] *)
Fixpoint for_each {A} (xs : list A) (body : A → Action unit) : Action unit :=
  match xs with
  | [] => ret ()
  | x :: rest => bind (body x) (λ _, for_each rest body)
  end.

(** A validated request body ([Schema]): its [dict] method, applied to the
    [exclude] set and the [exclude_unset] flag ([exclude_none] and
    [by_alias] are always true), gives the items of a dictionary. *)
Record Schema := {
  dict : gset string → bool → list (string * PyValue)
}.

(** A decoded relation-sync pair. *)
Abbreviation ModelRelation := (ManyToManyField * gset PyKey)%type.

Section Viewsets.

Local Open Scope action_scope.

(** The storage layer behind the model's manager. *)
Variable storage : Storage.

(** [freddie.helpers.is_iterable] *)
Variable is_iterable : PyValue → bool.

Definition manager_execute (query : Query) : Action PyValue :=
  storage_call (Execute query) (λ tr, on_execute storage tr query).

Definition manager_get (query : Query) : Action ModelObj :=
  storage_call (Get query) (λ tr, on_get storage tr query).

Definition set_related (pk : PyValue) (field : ManyToManyField)
    (ids : gset PyKey) : Action unit :=
  storage_call (SetRelated pk field ids)
    (λ tr, on_set_related storage tr pk field ids).

Definition get_related (pk : PyValue) (config : list Prefetch)
  : Action (list (string * PyValue)) :=
  storage_call (GetRelated pk config)
    (λ tr, on_get_related storage tr pk config).

(** *** Reading one object *)

Definition get_object_or_404 (self : GenericModelViewSet) (pk : PyValue)
    (fields : option ResponseFieldsDict) : Action ModelObj :=
  query ← lift (get_base_query self (default [] fields));
  let query := apply_query_filters self query None in
  expr ← lift (lookup_expr self pk);
  let query := where_ query [expr] in
  obj ← (λ tr, match manager_get query tr with
               | (inl (UnhandledDbError DoesNotExist), tr') =>
                   (inl (NotFound (_component_title (cls self) +:+ " not found")),
                    tr')
               | r => r
               end);
  let related_config := build_prefetch_config self (default [] fields) in
  match related_config with
  | [] => ret obj
  | _ =>
      related ← get_related (obj_pk obj) related_config;
      ret (foldl (λ obj '(attr_name, items), setattr obj attr_name items)
             obj related)
  end.

(** *** Decoding a request body *)

(** One pass of the loop of [serialize_request_body_for_db]. *)
Definition decode_item (self : GenericModelViewSet)
    (acc : ModelData * list ModelRelation) (item : string * PyValue)
  : Result (ModelData * list ModelRelation) :=
  let '(data, related) := acc in
  let '(key, value) := item in
  match _model_fields self !! key with
  | None =>
      if PyStr.endswith key FK_FIELD_POSTFIX then
        (* Handle one-to-many relations *)
        let field_name := PyStr.drop_last (String.length FK_FIELD_POSTFIX) key in
        match _model_fields self !! field_name with
        | Some _ => inr (<[field_name := value]> data, related)
        | None => inr (data, related)
        end
      else if PyStr.endswith key M2M_FIELD_POSTFIX && is_iterable value then
        (* Handle many-to-many relations *)
        let field_name := PyStr.drop_last (String.length M2M_FIELD_POSTFIX) key in
        match manytomany (model self) !! field_name with
        | Some field =>
            match py_set value with
            | Some ids => inr (data, related ++ [(field, ids)])
            | None => inl TypeError
            end
        | None => inr (data, related)
        end
      else inr (data, related)
  | Some _ => inr (<[key := value]> data, related)
  end.

Fixpoint decode_items (self : GenericModelViewSet)
    (items : list (string * PyValue)) (acc : ModelData * list ModelRelation)
  : Result (ModelData * list ModelRelation) :=
  match items with
  | [] => inr acc
  | item :: rest =>
      match decode_item self acc item with
      | inr acc' => decode_items self rest acc'
      | inl e => inl e
      end
  end.

Definition serialize_request_body_for_db (self : GenericModelViewSet)
    (body : Schema) (on_create : bool)
  : Result (ModelData * list ModelRelation) :=
  let excluded_keys :=
    get_read_only_fields (schema (cls self)) ∪ {[ fld_name (pk_field self) ]} in
  let serialized := dict body excluded_keys (negb on_create) in
  decode_items self serialized (∅, []).

(** *** Create *)

Definition perform_create (self : GenericModelViewSet) (data : ModelData)
  : Action PyValue :=
  let query := insert (model_name (model self)) data in
  manager_execute query.

Definition create (self : GenericModelViewSet) (body : Schema)
  : Action PyValue :=
  '(data, related) ← lift (serialize_request_body_for_db self body true);
  if decide (data = ∅) then raise (Unprocessable "Empty request body") else
  pk ← db_errors_handler (perform_create self data);
  if negb (py_truthy pk) then
    raise (ServerError (_component_title (cls self) +:+ " not created"))
  else
  _ ← db_errors_handler
        (for_each related
           (λ '(field, ids),
              if decide (ids = ∅) then ret () (* continue *)
              else set_related pk field ids));
  ret pk.

(** *** Update *)

Definition perform_update (self : GenericModelViewSet) (pk : PyValue)
    (data : ModelData) : Action PyValue :=
  let query := update_query (model_name (model self)) data in
  let query := apply_query_filters self query None in
  expr ← lift (lookup_expr self pk);
  let query := where_ query [expr] in
  manager_execute query.

Definition update (self : GenericModelViewSet) (pk : PyValue) (body : Schema)
  : Action PyValue :=
  '(data, related) ← lift (serialize_request_body_for_db self body false);
  _ ← (if decide (data = ∅) then ret ()
       else
         updated ← db_errors_handler (perform_update self pk data);
         if negb (py_truthy updated) then
           raise (ServerError (_component_title (cls self) +:+ " not updated"))
         else ret ());
  _ ← db_errors_handler
        (for_each related (λ '(field, ids), set_related pk field ids));
  ret pk.

(** *** Dispatch *)

(** Modelled from the spec: [GenericViewSet.perform_api_action], the
    method of the generic base class that [super().perform_api_action]
    reaches, is not part of this module. The orchestrators are described
    as running the handler and then re-fetching: the base method awaits
    the handler on its arguments and returns its result. *)
Definition generic_perform_api_action {A} (handler : Action A) : Action A :=
  handler.

(** [ModelCreateViewset.perform_api_action] for [handler == self.create] *)
Definition perform_api_action_create (self : GenericModelViewSet)
    (body : Schema) : Action ModelObj :=
  pk ← generic_perform_api_action (create self body);
  get_object_or_404 self pk (Some (_response_fields_full_config (cls self))).

(** [ModelUpdateViewset.perform_api_action] for [handler == self.update] *)
Definition perform_api_action_update (self : GenericModelViewSet)
    (pk : PyValue) (body : Schema) : Action ModelObj :=
  pk ← generic_perform_api_action (update self pk body);
  get_object_or_404 self pk (Some (_response_fields_full_config (cls self))).

End Viewsets.

(** ** Worked example: the model of the end-to-end scenario *)

(** Columns [id], [name] and the foreign key [category] (column
    [category_id]); the computed property [display_name] depends on
    [name]. *)
Module Catalog.

Definition id_field : DBField :=
  {| fld_name := "id"; fld_kind := PlainField; fld_unique := true |}.
Definition name_field : DBField :=
  {| fld_name := "name"; fld_kind := PlainField; fld_unique := false |}.
Definition category_field : DBField :=
  {| fld_name := "category";
     fld_kind := ForeignKeyField "Category";
     fld_unique := false |}.

Definition Product : ModelClass :=
  {| model_name := "Product";
     is_class := true;
     is_model_subclass := true;
     has_db := true;
     has_manager := true;
     model_pk_field := id_field;
     model_fields :=
       [("id", id_field); ("name", name_field); ("category", category_field)];
     model_backrefs := [];
     manytomany := ∅;
     map_props_dependencies := {[ "display_name" := [name_field] ]} |}.

Definition ProductSchema : SchemaClass :=
  {| schema_name := "ProductSchema";
     get_writable_fields := {[ "name"; "category_id" ]};
     get_field_max_length := λ _, None;
     get_read_only_fields := {[ "display_name" ]} |}.

Definition ProductViewSet : ViewSetClass :=
  {| viewset_name := "ProductViewSet";
     class_model := Product;
     schema := ProductSchema;
     secondary_lookup_field := None;
     _pk_type_choices := [TInt];
     _component_title := "Product";
     _response_fields_full_config := ["id"; "display_name"; "category_id"] |}.

Definition viewset : GenericModelViewSet :=
  {| cls := ProductViewSet;
     model := Product;
     pk_field := id_field;
     _model_fields :=
       <["category" := category_field]>
         (<["name" := name_field]> (<["id" := id_field]> ∅));
     _model_props_dependencies := {[ "display_name" := [name_field] ]} |}.

End Catalog.

(** ** Worked example: a relation whose own name carries the suffix *)

Module Suffixed.

Definition id_field : DBField :=
  {| fld_name := "id"; fld_kind := PlainField; fld_unique := true |}.
Definition tag_ids_relation : ManyToManyField :=
  {| m2m_name := "tag_ids"; m2m_rel_model := "Tag" |}.

Definition Post : ModelClass :=
  {| model_name := "Post";
     is_class := true;
     is_model_subclass := true;
     has_db := true;
     has_manager := true;
     model_pk_field := id_field;
     model_fields := [("id", id_field)];
     model_backrefs := [];
     manytomany := {[ "tag_ids" := tag_ids_relation ]};
     map_props_dependencies := ∅ |}.

Definition PostSchema : SchemaClass :=
  {| schema_name := "PostSchema";
     get_writable_fields := ∅;
     get_field_max_length := λ _, None;
     get_read_only_fields := ∅ |}.

Definition PostViewSet : ViewSetClass :=
  {| viewset_name := "PostViewSet";
     class_model := Post;
     schema := PostSchema;
     secondary_lookup_field := None;
     _pk_type_choices := [TInt];
     _component_title := "Post";
     _response_fields_full_config := ["id"; "tag_ids"] |}.

Definition viewset : GenericModelViewSet :=
  {| cls := PostViewSet;
     model := Post;
     pk_field := id_field;
     _model_fields := <["id" := id_field]> ∅;
     _model_props_dependencies := ∅ |}.

End Suffixed.

(** ** Worked example: two foreign keys to one model *)

(** An article has an author and an editor, both users; the property
    [byline] depends on the author, the property [short_id] on the
    title. *)
Module Ambiguous.

Definition id_field : DBField :=
  {| fld_name := "id"; fld_kind := PlainField; fld_unique := true |}.
Definition title_field : DBField :=
  {| fld_name := "title"; fld_kind := PlainField; fld_unique := false |}.
Definition author_field : DBField :=
  {| fld_name := "author"; fld_kind := ForeignKeyField "User"; fld_unique := false |}.
Definition editor_field : DBField :=
  {| fld_name := "editor"; fld_kind := ForeignKeyField "User"; fld_unique := false |}.

Definition Article : ModelClass :=
  {| model_name := "Article";
     is_class := true;
     is_model_subclass := true;
     has_db := true;
     has_manager := true;
     model_pk_field := id_field;
     model_fields :=
       [("id", id_field); ("title", title_field); ("author", author_field);
        ("editor", editor_field)];
     model_backrefs := [];
     manytomany := ∅;
     map_props_dependencies :=
       {[ "byline" := [author_field]; "short_id" := [title_field] ]} |}.

Definition ArticleSchema : SchemaClass :=
  {| schema_name := "ArticleSchema";
     get_writable_fields := {[ "title"; "author_id"; "editor_id" ]};
     get_field_max_length := λ _, None;
     get_read_only_fields := {[ "byline"; "short_id" ]} |}.

Definition ArticleViewSet : ViewSetClass :=
  {| viewset_name := "ArticleViewSet";
     class_model := Article;
     schema := ArticleSchema;
     secondary_lookup_field := None;
     _pk_type_choices := [TInt];
     _component_title := "Article";
     _response_fields_full_config := ["id"; "title"; "author_id"; "editor_id"] |}.

Definition viewset : GenericModelViewSet :=
  {| cls := ArticleViewSet;
     model := Article;
     pk_field := id_field;
     _model_fields :=
       <["editor" := editor_field]>
         (<["author" := author_field]>
            (<["title" := title_field]> (<["id" := id_field]> ∅)));
     _model_props_dependencies :=
       {[ "byline" := [author_field]; "short_id" := [title_field] ]} |}.

End Ambiguous.

(** ** Worked example: requests against a storage layer that accepts
    every call *)

Module Requests.

(** A storage layer on which every call succeeds: [execute] returns 1
    (the new key, or the number of rows), [get] the row of key 1. *)
Definition accepting : Storage :=
  {| on_execute := λ _ _, inr (VInt 1);
     on_get := λ _ _, inr {| obj_pk := VInt 1; obj_attrs := ∅ |};
     on_set_related := λ _ _ _ _, inr ();
     on_get_related := λ _ _ _, inr [] |}.

(** Lists are iterable, scalars are not. *)
Definition is_iterable (v : PyValue) : bool :=
  match v with
  | VList _ => true
  | _ => false
  end.

(** A request body with the given fields, all of them set and none of
    them [None]. *)
Definition body (items : list (string * PyValue)) : Schema :=
  {| dict := λ exclude _, filter (λ item, item.1 ∉ exclude) items |}.

(** Only the identifier, a read-only property and a relation: no column
    is assigned. *)
Definition relations_only : Schema :=
  body [("id", VInt 9); ("display_name", VStr "Kettle");
        ("tags_ids", VList [VInt 3; VInt 4; VInt 3])].

(** A column, a foreign key, and a relation emptied. *)
Definition renamed_untagged : Schema :=
  body [("name", VStr "Kettle"); ("category_id", VInt 2);
        ("tags_ids", VList [])].

(** The column assignments [renamed_untagged] decodes to. *)
Definition renamed_untagged_data : ModelData :=
  <["category" := VInt 2]> (<["name" := VStr "Kettle"]> ∅).

(** The item viewset with a single primary-key type choice. *)
Definition OneTypeViewSet : ViewSetClass :=
  {| viewset_name := "OneTypeViewSet";
     class_model := Inventory.Item;
     schema := Inventory.ItemSchema;
     secondary_lookup_field := Some Inventory.slug_field;
     _pk_type_choices := [TInt];
     _component_title := "Item";
     _response_fields_full_config := ["id"] |}.

(** The item viewset looking items up by [name], which is not unique. *)
Definition NonUniqueViewSet : ViewSetClass :=
  {| viewset_name := "NonUniqueViewSet";
     class_model := Inventory.Item;
     schema := Inventory.ItemSchema;
     secondary_lookup_field := Some Inventory.name_field;
     _pk_type_choices := [TInt; TStr];
     _component_title := "Item";
     _response_fields_full_config := ["id"] |}.

End Requests.

(** The relation writes for a list of relation-sync pairs, in order. *)
Definition relation_writes (pk : PyValue) (related : list ModelRelation)
  : list DbCall :=
  (λ r, SetRelated pk r.1 r.2) <$> related.

(** The viewset class [c] with no secondary lookup field configured. *)
Definition without_secondary_lookup (c : ViewSetClass) : ViewSetClass :=
  {| viewset_name := viewset_name c;
     class_model := class_model c;
     schema := schema c;
     secondary_lookup_field := None;
     _pk_type_choices := _pk_type_choices c;
     _component_title := _component_title c;
     _response_fields_full_config := _response_fields_full_config c |}.

(** ** Reading a plan *)

(** What one requested name adds to [selected] and to [joined]. *)
Definition field_plan (self : GenericModelViewSet) (field_name : string)
  : gset Selectable * gset ModelRef :=
  plan_field self (∅, ∅) (field_name, _model_fields self !! field_name).

(** The arguments of the [select] call of a query. *)
Definition selection (query : Query) : gset Selectable :=
  match q_stmt query with
  | SELECT columns => columns
  | _ => ∅
  end.

(** The join [get_base_query] makes to a related model. *)
Definition left_outer_join (self : GenericModelViewSet) (rel_model : ModelRef)
  : Join :=
  {| join_src := model_name (model self);
     join_dest := rel_model;
     join_type := LEFT_OUTER |}.

(** ** Destroy *)

Section Destroy.

Local Open Scope action_scope.

Variable storage : Storage.

Definition perform_destroy (self : GenericModelViewSet) (pk : PyValue)
  : Action PyValue :=
  let query := delete_query (model_name (model self)) in
  let query := apply_query_filters self query None in
  expr ← lift (lookup_expr self pk);
  let query := where_ query [expr] in
  manager_execute storage query.

Definition destroy (self : GenericModelViewSet) (pk : PyValue) : Action unit :=
  deleted ← perform_destroy self pk;
  if negb (py_truthy deleted) then
    raise (ServerError (_component_title (cls self) +:+ " not deleted"))
  else ret ().

End Destroy.

(** ** Worked example: storage layers that refuse *)

Module Refusing.

(** Every [execute] reports no key and no row; nothing is found. *)
Definition empty_handed : Storage :=
  {| on_execute := λ _ _, inr (VInt 0);
     on_get := λ _ _, inl DoesNotExist;
     on_set_related := λ _ _ _ _, inr ();
     on_get_related := λ _ _ _, inr [] |}.

(** Every call raises. *)
Definition broken : Storage :=
  {| on_execute := λ _ _, inl (DatabaseError "connection lost");
     on_get := λ _ _, inl (DatabaseError "connection lost");
     on_set_related := λ _ _ _ _, inl (DatabaseError "connection lost");
     on_get_related := λ _ _ _, inl (DatabaseError "connection lost") |}.

(** Rows are found and written, relation writes raise. *)
Definition no_relations : Storage :=
  {| on_execute := λ _ _, inr (VInt 1);
     on_get := λ _ _, inr {| obj_pk := VInt 1; obj_attrs := ∅ |};
     on_set_related := λ _ _ _ _, inl (DatabaseError "no such table");
     on_get_related := λ _ _ _, inl (DatabaseError "no such table") |}.

(** The row of key 11 is found whatever the lookup; its tags are 3 and 4. *)
Definition tagged : Storage :=
  {| on_execute := λ _ _, inr (VInt 1);
     on_get := λ _ _, inr {| obj_pk := VInt 11; obj_attrs := ∅ |};
     on_set_related := λ _ _ _ _, inr ();
     on_get_related := λ _ _ _, inr [("tags_ids", VList [VInt 3; VInt 4])] |}.

(** A schema that declares [name] longer than the column is. *)
Definition LongNameSchema : SchemaClass :=
  {| schema_name := "LongNameSchema";
     get_writable_fields := {[ "name"; "slug" ]};
     get_field_max_length :=
       λ f, if String.eqb f "name" then Some 255
            else if String.eqb f "slug" then Some 50 else None;
     get_read_only_fields := ∅ |}.

Definition LongNameViewSet : ViewSetClass :=
  {| viewset_name := "LongNameViewSet";
     class_model := Inventory.Item;
     schema := LongNameSchema;
     secondary_lookup_field := None;
     _pk_type_choices := [TInt];
     _component_title := "Item";
     _response_fields_full_config := ["id"] |}.

End Refusing.

(** * Properties *)

(** ** Strings *)

Lemma chars_app (a b : string) :
  list_ascii_of_string (a +:+ b)
  = list_ascii_of_string a ++ list_ascii_of_string b.
Proof.
  induction a as [|c a IH]; [done |].
  change (String c a +:+ b) with (String c (a +:+ b)). simpl. by rewrite IH.
Qed.

Lemma endswith_app (r suffix : string) :
  PyStr.endswith (r +:+ suffix) suffix = true.
Proof.
  unfold PyStr.endswith. rewrite chars_app, List.length_app.
  apply bool_decide_eq_true. split; [lia |].
  replace (_ + _ - _) with (List.length (list_ascii_of_string r)) by lia.
  by rewrite drop_app_length.
Qed.

Lemma drop_last_app (r suffix : string) :
  PyStr.drop_last (String.length suffix) (r +:+ suffix) = r.
Proof.
  unfold PyStr.drop_last. rewrite chars_app, List.length_app.
  assert (String.length suffix = List.length (list_ascii_of_string suffix)) as ->.
  { clear. induction suffix; simpl; congruence. }
  replace (_ + _ - _) with (List.length (list_ascii_of_string r)) by lia.
  rewrite take_app_length. apply string_of_list_ascii_of_string.
Qed.

(** ** The worked example *)

Example init_viewset : init Inventory.ItemViewSet None = inr Inventory.viewset.
Proof. reflexivity. Qed.

Example base_query_name :
  get_base_query Inventory.viewset ["name"]
  = inr (select "Item" {[ SelField Inventory.name_field ]}).
Proof. reflexivity. Qed.

(** ** The query planner *)

Section Planner.

Variable self : GenericModelViewSet.

Lemma plan_field_acc selected joined item :
  plan_field self (selected, joined) item
  = ((plan_field self (∅, ∅) item).1 ∪ selected,
     (plan_field self (∅, ∅) item).2 ∪ joined).
Proof.
  destruct item as [field_name [db_field|]]; simpl.
  - destruct (fld_kind db_field); simpl; f_equal; set_solver.
  - destruct (PyStr.endswith field_name FK_FIELD_POSTFIX); simpl;
      f_equal; set_solver.
Qed.

Lemma foldl_plan_field (fields : list string) selected joined :
  foldl (plan_field self) (selected, joined)
    ((λ field_name, (field_name, _model_fields self !! field_name)) <$> fields)
  = (⋃ ((λ n, (field_plan self n).1) <$> fields) ∪ selected,
     ⋃ ((λ n, (field_plan self n).2) <$> fields) ∪ joined).
Proof.
  revert selected joined.
  induction fields as [|n fields IH]; intros selected joined.
  - simpl. f_equal; set_solver.
  - rewrite !fmap_cons. cbn [foldl].
    rewrite plan_field_acc, IH. unfold field_plan. cbn [union_list foldr].
    f_equal; set_solver.
Qed.

Lemma set_fold_join_from (query : Query) (joined : gset ModelRef) :
  set_fold
    (λ joined_model (outcome : Result Query),
       match outcome with
       | inr query => join_from query (model self) joined_model LEFT_OUTER
       | inl e => inl e
       end)
    (inr query) joined
  = if decide (set_Forall (λ m, is_Some (join_condition (model self) m)) joined)
    then inr {| q_model := q_model query;
                q_stmt := q_stmt query;
                q_joins := set_map (left_outer_join self) joined ∪ q_joins query;
                q_where := q_where query |}
    else inl ValueError.
Proof.
  pose (P := λ (r : Result Query) (X : gset ModelRef),
          r = if decide (set_Forall
                           (λ m, is_Some (join_condition (model self) m)) X)
              then inr {| q_model := q_model query;
                          q_stmt := q_stmt query;
                          q_joins := set_map (left_outer_join self) X
                                     ∪ q_joins query;
                          q_where := q_where query |}
              else inl ValueError).
  apply (set_fold_ind_L P); unfold P; clear P.
  - rewrite decide_True by apply set_Forall_empty.
    destruct query; simpl. do 2 f_equal. set_solver.
  - intros m X r Hm ->. case_decide as HX.
    + unfold join_from.
      destruct (join_condition (model self) m) as [fk|] eqn:Hcondition.
      * rewrite decide_True.
        { simpl. do 2 f_equal.
          rewrite set_map_union_L, set_map_singleton_L. unfold left_outer_join.
          set_solver. }
        apply set_Forall_union; [|done].
        apply set_Forall_singleton. by rewrite Hcondition.
      * rewrite decide_False; [done|].
        intros Hall. apply set_Forall_union_inv_1, set_Forall_singleton in Hall.
        rewrite Hcondition in Hall. by destruct Hall.
    + rewrite decide_False; [done|].
      intros Hall. by apply set_Forall_union_inv_2 in Hall.
Qed.

(** [get_base_query] in closed form: the union of what each requested
    name contributes, the primary key when that union is empty, and one
    LEFT OUTER join per related model; [ValueError] when the join to one
    of the related models cannot be worked out. *)
Lemma get_base_query_eq (fields : ResponseFieldsDict) :
  let selected := ⋃ ((λ n, (field_plan self n).1) <$> fields) in
  let joined := ⋃ ((λ n, (field_plan self n).2) <$> fields) in
  get_base_query self fields
  = if decide (set_Forall (λ m, is_Some (join_condition (model self) m)) joined)
    then inr {| q_model := model_name (model self);
                q_stmt := SELECT (if decide (selected = ∅)
                                  then {[ SelField (pk_field self) ]}
                                  else selected);
                q_joins := set_map (left_outer_join self) joined;
                q_where := [] |}
    else inl ValueError.
Proof.
  intros selected joined. unfold get_base_query.
  rewrite foldl_plan_field. rewrite !(right_id_L ∅ (∪)).
  rewrite set_fold_join_from. unfold select, new_query; simpl.
  fold selected joined. case_decide; [|done]. do 2 f_equal. set_solver.
Qed.

(** What [get_base_query] returns, when it returns. *)
Lemma get_base_query_inr (fields : ResponseFieldsDict) (query : Query) :
  get_base_query self fields = inr query →
  let selected := ⋃ ((λ n, (field_plan self n).1) <$> fields) in
  let joined := ⋃ ((λ n, (field_plan self n).2) <$> fields) in
  query = {| q_model := model_name (model self);
             q_stmt := SELECT (if decide (selected = ∅)
                               then {[ SelField (pk_field self) ]}
                               else selected);
             q_joins := set_map (left_outer_join self) joined;
             q_where := [] |}
  ∧ set_Forall (λ m, is_Some (join_condition (model self) m)) joined.
Proof.
  rewrite get_base_query_eq. simpl. case_decide; [|done].
  intros [= <-]. done.
Qed.

(** [get_base_query] raises nothing but [ValueError]. *)
Lemma get_base_query_inl (fields : ResponseFieldsDict) (e : Exception) :
  get_base_query self fields = inl e →
  e = ValueError
  ∧ ¬ set_Forall (λ m, is_Some (join_condition (model self) m))
        (⋃ ((λ n, (field_plan self n).2) <$> fields)).
Proof.
  rewrite get_base_query_eq. simpl. case_decide; [done|].
  intros [= <-]. done.
Qed.

(** [get_base_query] returns when every join can be worked out. *)
Lemma get_base_query_returns (fields : ResponseFieldsDict) :
  set_Forall (λ m, is_Some (join_condition (model self) m))
    (⋃ ((λ n, (field_plan self n).2) <$> fields)) →
  ∃ query, get_base_query self fields = inr query.
Proof.
  intros Hall. rewrite get_base_query_eq. simpl.
  rewrite decide_True by done. by eexists.
Qed.

Lemma selection_get_base_query (fields : ResponseFieldsDict) (query : Query) x :
  get_base_query self fields = inr query →
  x ∈ ⋃ ((λ n, (field_plan self n).1) <$> fields) →
  x ∈ selection query.
Proof.
  intros [-> _]%get_base_query_inr Hx. unfold selection; simpl.
  case_decide as Hempty; [|done]. rewrite Hempty in Hx. set_solver.
Qed.

Lemma joins_get_base_query (fields : ResponseFieldsDict) (query : Query) :
  get_base_query self fields = inr query →
  q_joins query
  = set_map (left_outer_join self) (⋃ ((λ n, (field_plan self n).2) <$> fields)).
Proof. by intros [-> _]%get_base_query_inr. Qed.

Lemma elem_of_plans {A} `{Countable A} (g : string → gset A)
    (fields : list string) (x : A) :
  x ∈ ⋃ (g <$> fields) ↔ ∃ n, n ∈ fields ∧ x ∈ g n.
Proof.
  rewrite elem_of_union_list. split.
  - intros (X & HX & Hx). apply list_elem_of_fmap in HX as (n & -> & Hn).
    by exists n.
  - intros (n & Hn & Hx). exists (g n). split; [|done].
    apply list_elem_of_fmap. by exists n.
Qed.

(** A requested name that is a foreign-key column. *)
Lemma field_plan_fk (n : string) (fk : DBField) (rel_model : ModelRef) :
  _model_fields self !! n = Some fk →
  fld_kind fk = ForeignKeyField rel_model →
  field_plan self n = ({[ SelModel rel_model ]}, {[ rel_model ]}).
Proof.
  intros Hn Hkind. unfold field_plan. rewrite Hn. simpl. rewrite Hkind.
  f_equal; set_solver.
Qed.

(** A requested name outside the schema that carries the foreign-key
    suffix. *)
Lemma field_plan_fk_id (n : string) :
  _model_fields self !! n = None →
  PyStr.endswith n FK_FIELD_POSTFIX = true →
  field_plan self n
  = ({[ selectable_of
          (_model_fields self
             !! PyStr.drop_last (String.length FK_FIELD_POSTFIX) n) ]}, ∅).
Proof.
  intros Hn Hsuffix. unfold field_plan. rewrite Hn. simpl. rewrite Hsuffix.
  f_equal; set_solver.
Qed.

(** A requested name handled as a computed property. *)
Lemma field_plan_property (n : string) :
  _model_fields self !! n = None →
  PyStr.endswith n FK_FIELD_POSTFIX = false →
  let dependencies := default [] (_model_props_dependencies self !! n) in
  field_plan self n
  = (list_to_set (SelModel <$> omap fk_rel_model dependencies)
       ∪ list_to_set (SelField <$> dependencies),
     list_to_set (omap fk_rel_model dependencies)).
Proof.
  intros Hn Hsuffix. unfold field_plan. rewrite Hn. simpl. rewrite Hsuffix.
  simpl. f_equal; set_solver.
Qed.

(** Requested names that match nothing and do not carry the foreign-key
    suffix leave the selection to the primary key. *)
Lemma unknown_fields_select_pk (fields : ResponseFieldsDict) :
  (∀ n, n ∈ fields →
        _model_fields self !! n = None
        ∧ PyStr.endswith n FK_FIELD_POSTFIX = false
        ∧ _model_props_dependencies self !! n = None) →
  get_base_query self fields
  = inr (select (model_name (model self)) {[ SelField (pk_field self) ]}).
Proof.
  intros Hunknown. rewrite get_base_query_eq.
  assert (∀ n, n ∈ fields → field_plan self n = (∅, ∅)) as Hplan.
  { intros n Hn. destruct (Hunknown n Hn) as (Hcol & Hsuffix & Hprop).
    rewrite field_plan_property by done. rewrite Hprop. simpl.
    f_equal; set_solver. }
  assert (⋃ ((λ n, (field_plan self n).1) <$> fields) = ∅) as ->.
  { apply set_eq. intros x. rewrite elem_of_plans. split; [|set_solver].
    intros (n & Hn & Hx). by rewrite (Hplan n Hn) in Hx. }
  assert (⋃ ((λ n, (field_plan self n).2) <$> fields) = ∅) as ->.
  { apply set_eq. intros x. rewrite elem_of_plans. split; [|set_solver].
    intros (n & Hn & Hx). by rewrite (Hplan n Hn) in Hx. }
  simpl. rewrite decide_True by apply set_Forall_empty.
  rewrite decide_True by done. rewrite set_map_empty. done.
Qed.

(** A request that needs no join gives a query. *)
Lemma get_base_query_no_join (fields : ResponseFieldsDict) :
  ⋃ ((λ n, (field_plan self n).2) <$> fields) = ∅ →
  let selected := ⋃ ((λ n, (field_plan self n).1) <$> fields) in
  get_base_query self fields
  = inr (select (model_name (model self))
           (if decide (selected = ∅)
            then {[ SelField (pk_field self) ]} else selected)).
Proof.
  intros Hjoined. rewrite get_base_query_eq. simpl. rewrite Hjoined.
  rewrite decide_True by apply set_Forall_empty. by rewrite set_map_empty.
Qed.

End Planner.

(** Two requests that need the same joins: where one gives a query, so
    does the other, with the same joins. *)
Lemma get_base_query_same_joined (self : GenericModelViewSet)
    (fields fields' : ResponseFieldsDict) (query : Query) :
  ⋃ ((λ n, (field_plan self n).2) <$> fields)
  = ⋃ ((λ n, (field_plan self n).2) <$> fields') →
  get_base_query self fields = inr query →
  ∃ query', get_base_query self fields' = inr query'
            ∧ q_joins query = q_joins query'.
Proof.
  intros Hjoined [-> Hall]%get_base_query_inr.
  rewrite Hjoined in Hall.
  destruct (get_base_query_returns self fields' Hall) as [query' Hquery'].
  exists query'. split; [done|].
  rewrite (joins_get_base_query self fields' query' Hquery'). simpl.
  by rewrite Hjoined.
Qed.

(** Leaving out a requested name that needs no join leaves the joins as
    they are. *)
Lemma joined_without (self : GenericModelViewSet)
    (fields : ResponseFieldsDict) (n : string) :
  (field_plan self n).2 = ∅ →
  ⋃ ((λ n, (field_plan self n).2) <$> fields)
  = ⋃ ((λ n, (field_plan self n).2) <$> filter (λ n', n' ≠ n) fields).
Proof.
  intros Hplan. apply set_eq. intros m. rewrite !elem_of_plans. split.
  - intros (n' & Hn' & Hm). exists n'. split; [|done].
    apply list_elem_of_filter. split; [|done].
    intros ->. rewrite Hplan in Hm. set_solver.
  - intros (n' & Hn' & Hm). exists n'. split; [|done].
    by apply list_elem_of_filter in Hn' as [_ Hn'].
Qed.

(** C1 (as found in the code). A requested name that matches no column, no
    relation and no property, but ends in the foreign-key suffix, is not
    dropped: the failed lookup of its stem puts [None] into the selection,
    the selection is then not empty, and the primary key is not selected.
    Here the only requested name is [owner_id] on a model with neither an
    [owner_id] nor an [owner] column. *)
Theorem unknown_fk_suffixed_name_selects_none :
  _model_fields Inventory.viewset !! "owner_id" = None
  ∧ _model_fields Inventory.viewset !! "owner" = None
  ∧ _model_props_dependencies Inventory.viewset !! "owner_id" = None
  ∧ manytomany (model Inventory.viewset) !! "owner_id" = None
  ∧ get_base_query Inventory.viewset ["owner_id"]
    = inr (select "Item" {[ SelNone ]})
  ∧ SelField (pk_field Inventory.viewset)
      ∉ selection (select "Item" {[ SelNone ]}).
Proof.
  repeat split; try reflexivity.
  unfold selection; simpl. set_solver.
Qed.

(** C2. When [f] is a foreign-key column and the name [f_id], itself not a
    column, is requested: the query selects the column [f]; its joins are
    those of the same request without [f_id], so this name adds none (the
    request gives a query exactly when the request without [f_id] does);
    and requested alone it gives a query on the column [f] with no
    join. *)
Theorem fk_id_selects_column_without_join
    (self : GenericModelViewSet) (fields : ResponseFieldsDict)
    (f : string) (fk : DBField) (rel_model : ModelRef)
    (Hcolumn : _model_fields self !! f = Some fk)
    (Hfk : fld_kind fk = ForeignKeyField rel_model)
    (Hfree : _model_fields self !! (f +:+ FK_FIELD_POSTFIX) = None)
    (Hrequested : f +:+ FK_FIELD_POSTFIX ∈ fields) :
  (∀ query,
     get_base_query self fields = inr query →
     SelField fk ∈ selection query
     ∧ ∃ query',
         get_base_query self (filter (λ n, n ≠ f +:+ FK_FIELD_POSTFIX) fields)
         = inr query'
         ∧ q_joins query = q_joins query')
  ∧ (∀ query',
       get_base_query self (filter (λ n, n ≠ f +:+ FK_FIELD_POSTFIX) fields)
       = inr query' →
       ∃ query, get_base_query self fields = inr query
                ∧ q_joins query = q_joins query')
  ∧ get_base_query self [f +:+ FK_FIELD_POSTFIX]
    = inr (select (model_name (model self)) {[ SelField fk ]}).
Proof.
  assert (field_plan self (f +:+ FK_FIELD_POSTFIX) = ({[ SelField fk ]}, ∅))
    as Hplan.
  { rewrite field_plan_fk_id by (done || apply endswith_app).
    by rewrite drop_last_app, Hcolumn. }
  pose proof (joined_without self fields (f +:+ FK_FIELD_POSTFIX)) as Hjoined.
  rewrite Hplan in Hjoined. specialize (Hjoined eq_refl).
  split; [|split].
  - intros query Hquery. split.
    + apply (selection_get_base_query self fields query _ Hquery), elem_of_plans.
      exists (f +:+ FK_FIELD_POSTFIX). split; [done|]. rewrite Hplan. set_solver.
    + by apply (get_base_query_same_joined self fields).
  - intros query' Hquery'.
    destruct (get_base_query_same_joined self _ fields query'
                (eq_sym Hjoined) Hquery') as (query & Hquery & Hjoins).
    by exists query.
  - rewrite get_base_query_no_join; simpl; rewrite Hplan; simpl;
      rewrite !(right_id_L ∅ (∪)); [|done].
    by rewrite decide_False by set_solver.
Qed.

Lemma fk_id_selects_column_without_join_witness :
  (∃ query,
     get_base_query Inventory.viewset ["name"; "category_id"; "category"]
     = inr query
     ∧ SelField Inventory.category_field ∈ selection query
     ∧ ∃ query',
         get_base_query Inventory.viewset
           (filter (λ n, n ≠ "category" +:+ FK_FIELD_POSTFIX)
              ["name"; "category_id"; "category"])
         = inr query'
         ∧ q_joins query = q_joins query')
  ∧ get_base_query Inventory.viewset ["category" +:+ FK_FIELD_POSTFIX]
    = inr (select "Item" {[ SelField Inventory.category_field ]}).
Proof.
  destruct (fk_id_selects_column_without_join Inventory.viewset
              ["name"; "category_id"; "category"] "category"
              Inventory.category_field "Category"
              eq_refl eq_refl eq_refl
              ltac:(apply list_elem_of_further, list_elem_of_here))
    as (Hselected & _ & Halone).
  split; [|exact Halone].
  destruct (get_base_query Inventory.viewset ["name"; "category_id"; "category"])
    as [e|query] eqn:Hquery.
  { exfalso. vm_compute in Hquery. discriminate Hquery. }
  exists query. split; [reflexivity|]. by apply Hselected.
Defined.

(** C3 (counterexample). An article has two foreign keys to the user
    model, neither of them named [user]. Requesting the foreign-key column
    [author] makes the planner join the user model without saying on which
    key; the query builder cannot tell, and [get_base_query] raises
    [ValueError]: no query is built, nothing is selected or joined. *)
Lemma ambiguous_fk_builds_no_query :
  _model_fields Ambiguous.viewset !! "author" = Some Ambiguous.author_field
  ∧ fld_kind Ambiguous.author_field = ForeignKeyField "User"
  ∧ get_base_query Ambiguous.viewset ["author"] = inl ValueError
  ∧ ¬ (∀ (self : GenericModelViewSet) (fields : ResponseFieldsDict)
         (f : string) (fk : DBField) (rel_model : ModelRef),
         _model_fields self !! f = Some fk →
         fld_kind fk = ForeignKeyField rel_model →
         f ∈ fields →
         ∃ query,
           get_base_query self fields = inr query
           ∧ SelModel rel_model ∈ selection query
           ∧ {| join_src := model_name (model self);
                join_dest := rel_model;
                join_type := LEFT_OUTER |} ∈ q_joins query).
Proof.
  split; [reflexivity|]. split; [reflexivity|]. split; [reflexivity|].
  intros Hall.
  destruct (Hall Ambiguous.viewset ["author"] "author" Ambiguous.author_field
              "User" eq_refl eq_refl ltac:(apply list_elem_of_here))
    as (query & Hquery & _).
  assert (get_base_query Ambiguous.viewset ["author"] = inl ValueError) as Hraise
    by reflexivity.
  rewrite Hraise in Hquery. discriminate Hquery.
Qed.

(** C3 (amended). When a requested name is itself a foreign-key column,
    every query the planner returns selects the related model as a whole
    and joins it with a LEFT OUTER join, and all its joins are LEFT OUTER
    joins from the viewset's model. Requested alone the name gives such a
    query when the join to the related model can be worked out; when it
    cannot, every request that carries the name raises [ValueError]. *)
Theorem fk_column_selects_and_joins_related_model
    (self : GenericModelViewSet) (fields : ResponseFieldsDict)
    (f : string) (fk : DBField) (rel_model : ModelRef)
    (Hcolumn : _model_fields self !! f = Some fk)
    (Hfk : fld_kind fk = ForeignKeyField rel_model)
    (Hrequested : f ∈ fields) :
  (∀ query,
     get_base_query self fields = inr query →
     SelModel rel_model ∈ selection query
     ∧ {| join_src := model_name (model self);
          join_dest := rel_model;
          join_type := LEFT_OUTER |} ∈ q_joins query
     ∧ ∀ j, j ∈ q_joins query →
            join_src j = model_name (model self) ∧ join_type j = LEFT_OUTER)
  ∧ (is_Some (join_condition (model self) rel_model) →
     get_base_query self [f]
     = inr {| q_model := model_name (model self);
              q_stmt := SELECT {[ SelModel rel_model ]};
              q_joins := {[ {| join_src := model_name (model self);
                               join_dest := rel_model;
                               join_type := LEFT_OUTER |} ]};
              q_where := [] |})
  ∧ (join_condition (model self) rel_model = None →
     get_base_query self fields = inl ValueError).
Proof.
  pose proof (field_plan_fk self f fk rel_model Hcolumn Hfk) as Hplan.
  split; [|split].
  - intros query Hquery. split; [|split].
    + apply (selection_get_base_query self fields query _ Hquery), elem_of_plans.
      exists f. split; [done|]. rewrite Hplan. set_solver.
    + rewrite (joins_get_base_query self fields query Hquery).
      apply elem_of_map. exists rel_model.
      split; [done|]. apply elem_of_plans. exists f. split; [done|].
      rewrite Hplan. set_solver.
    + intros j. rewrite (joins_get_base_query self fields query Hquery).
      intros (m & -> & _)%elem_of_map. done.
  - intros Hcondition. rewrite get_base_query_eq. simpl. rewrite Hplan. simpl.
    rewrite !(right_id_L ∅ (∪)).
    rewrite decide_True by (by apply set_Forall_singleton).
    rewrite decide_False by set_solver.
    by rewrite set_map_singleton_L.
  - intros Hcondition. rewrite get_base_query_eq. simpl.
    rewrite decide_False; [done|]. intros Hall.
    assert (rel_model ∈ ⋃ ((λ n, (field_plan self n).2) <$> fields)) as Hin.
    { apply elem_of_plans. exists f. split; [done|]. rewrite Hplan. set_solver. }
    destruct (Hall rel_model Hin) as [fk' Hfk']. congruence.
Qed.

Lemma fk_column_selects_and_joins_related_model_witness :
  (∃ query,
     get_base_query Inventory.viewset ["id"; "category"] = inr query
     ∧ SelModel "Category" ∈ selection query
     ∧ {| join_src := "Item"; join_dest := "Category"; join_type := LEFT_OUTER |}
         ∈ q_joins query
     ∧ ∀ j, j ∈ q_joins query →
            join_src j = "Item" ∧ join_type j = LEFT_OUTER)
  ∧ get_base_query Inventory.viewset ["category"]
    = inr {| q_model := "Item";
             q_stmt := SELECT {[ SelModel "Category" ]};
             q_joins := {[ {| join_src := "Item"; join_dest := "Category";
                              join_type := LEFT_OUTER |} ]};
             q_where := [] |}
  ∧ get_base_query Ambiguous.viewset ["title"; "editor"] = inl ValueError.
Proof.
  split; [|split].
  - destruct (fk_column_selects_and_joins_related_model Inventory.viewset
                ["id"; "category"] "category" Inventory.category_field "Category"
                eq_refl eq_refl
                ltac:(apply list_elem_of_further, list_elem_of_here))
      as (Hbuilt & _ & _).
    destruct (get_base_query Inventory.viewset ["id"; "category"])
      as [e|query] eqn:Hquery.
    { exfalso. vm_compute in Hquery. discriminate Hquery. }
    exists query. split; [reflexivity|]. by apply Hbuilt.
  - apply (fk_column_selects_and_joins_related_model Inventory.viewset
             ["category"] "category" Inventory.category_field "Category"
             eq_refl eq_refl ltac:(apply list_elem_of_here)).
    by eexists.
  - apply (fk_column_selects_and_joins_related_model Ambiguous.viewset
             ["title"; "editor"] "editor" Ambiguous.editor_field "User"
             eq_refl eq_refl
             ltac:(apply list_elem_of_further, list_elem_of_here)).
    reflexivity.
Defined.

(** The end-to-end scenario: requesting [id] and the foreign key
    [category] itself selects [id] and the whole [Category] model, which
    is joined with a LEFT OUTER join. *)
Example base_query_embeds_category :
  get_base_query Catalog.viewset ["id"; "category"]
  = inr {| q_model := "Product";
           q_stmt := SELECT {[ SelField Catalog.id_field; SelModel "Category" ]};
           q_joins := {[ {| join_src := "Product"; join_dest := "Category";
                            join_type := LEFT_OUTER |} ]};
           q_where := [] |}.
Proof. reflexivity. Qed.




(** A property that depends on a foreign-key column: the column and the
    related model are selected, and the related model is joined. *)
Example base_query_property_on_fk :
  get_base_query Inventory.viewset ["category_label"]
  = inr {| q_model := "Item";
           q_stmt := SELECT {[ SelField Inventory.category_field;
                               SelModel "Category" ]};
           q_joins := {[ {| join_src := "Item"; join_dest := "Category";
                            join_type := LEFT_OUTER |} ]};
           q_where := [] |}.
Proof. reflexivity. Qed.

(** ** Prefetch requests *)

(** The entries of a prefetch plan: one per requested name whose stripped
    form is a relation, attached under the name as requested. *)
Lemma elem_of_build_prefetch_config (self : GenericModelViewSet)
    (fields : ResponseFieldsDict) (p : Prefetch) :
  p ∈ build_prefetch_config self fields
  ↔ ∃ n, n ∈ fields
         ∧ manytomany (model self)
             !! (if PyStr.endswith n M2M_FIELD_POSTFIX
                 then PyStr.drop_last (String.length M2M_FIELD_POSTFIX) n
                 else n) = Some (field p)
         ∧ attr_name p = n
         ∧ ids_only p = PyStr.endswith n M2M_FIELD_POSTFIX.
Proof.
  unfold build_prefetch_config. rewrite list_elem_of_omap. split.
  - intros (n & Hn & Hp). exists n. split; [done|].
    destruct (manytomany (model self) !! _) as [fld|] eqn:Hrel; [|done].
    injection Hp as <-. done.
  - intros (n & Hn & Hrel & Hattr & Hids). exists n. split; [done|].
    rewrite Hrel. destruct p; simpl in *. by subst.
Qed.

(** C5 (counterexample). A relation may be named with the suffix itself:
    for the relation [tag_ids], requesting [tag_ids] is read as the
    identifiers of a relation [tag], which does not exist, and nothing is
    prefetched. *)
Lemma suffixed_relation_not_prefetched :
  manytomany (model Suffixed.viewset) !! "tag_ids" = Some Suffixed.tag_ids_relation
  ∧ build_prefetch_config Suffixed.viewset ["tag_ids"] = []
  ∧ ¬ (∀ (self : GenericModelViewSet) (r : string) (relation : ManyToManyField),
         manytomany (model self) !! r = Some relation →
         {| field := relation; attr_name := r; ids_only := false |}
           ∈ build_prefetch_config self [r]).
Proof.
  split; [reflexivity|]. split; [reflexivity|].
  intros Hall.
  specialize (Hall Suffixed.viewset "tag_ids" Suffixed.tag_ids_relation eq_refl).
  assert (build_prefetch_config Suffixed.viewset ["tag_ids"] = []) as Hnil
    by reflexivity.
  rewrite Hnil in Hall. by apply not_elem_of_nil in Hall.
Qed.

(** C5 (amended). For a many-to-many relation [r]: requesting [r], when
    [r] does not itself end in the many-to-many suffix, yields an entry
    with [ids_only = false] attached as [r]; requesting [r_ids] yields an
    entry with [ids_only = true] attached as [r_ids]; and a requested name
    whose stripped form is not a relation yields no entry. *)
Theorem prefetch_entries
    (self : GenericModelViewSet) (fields : ResponseFieldsDict)
    (r : string) (relation : ManyToManyField)
    (Hrelation : manytomany (model self) !! r = Some relation) :
  (PyStr.endswith r M2M_FIELD_POSTFIX = false → r ∈ fields →
   {| field := relation; attr_name := r; ids_only := false |}
     ∈ build_prefetch_config self fields)
  ∧ (r +:+ M2M_FIELD_POSTFIX ∈ fields →
     {| field := relation; attr_name := r +:+ M2M_FIELD_POSTFIX; ids_only := true |}
       ∈ build_prefetch_config self fields)
  ∧ (∀ n,
       manytomany (model self)
         !! (if PyStr.endswith n M2M_FIELD_POSTFIX
             then PyStr.drop_last (String.length M2M_FIELD_POSTFIX) n
             else n) = None →
       ∀ p, p ∈ build_prefetch_config self fields → attr_name p ≠ n).
Proof.
  split; [|split].
  - intros Hplain Hr. apply elem_of_build_prefetch_config. exists r.
    rewrite Hplain. done.
  - intros Hr. apply elem_of_build_prefetch_config.
    exists (r +:+ M2M_FIELD_POSTFIX).
    rewrite endswith_app, drop_last_app. done.
  - intros n Hnone p (n' & _ & Hrel & Hattr & _)%elem_of_build_prefetch_config Heq.
    assert (n' = n) as -> by congruence. congruence.
Qed.

Lemma prefetch_entries_witness :
  {| field := Inventory.tags_relation; attr_name := "tags"; ids_only := false |}
    ∈ build_prefetch_config Inventory.viewset ["tags"; "tags_ids"; "name"]
  ∧ {| field := Inventory.tags_relation; attr_name := "tags_ids"; ids_only := true |}
    ∈ build_prefetch_config Inventory.viewset ["tags"; "tags_ids"; "name"]
  ∧ ∀ p, p ∈ build_prefetch_config Inventory.viewset ["tags"; "tags_ids"; "name"] →
         attr_name p ≠ "name".
Proof.
  destruct (prefetch_entries Inventory.viewset ["tags"; "tags_ids"; "name"]
              "tags" Inventory.tags_relation eq_refl) as (Hfull & Hids & Hnone).
  split; [|split].
  - apply Hfull; [reflexivity | apply list_elem_of_here].
  - apply Hids. apply list_elem_of_further, list_elem_of_here.
  - apply (Hnone "name"). reflexivity.
Defined.

Example prefetch_config_tags :
  build_prefetch_config Inventory.viewset ["tags"; "tags_ids"; "name"]
  = [ {| field := Inventory.tags_relation; attr_name := "tags"; ids_only := false |};
      {| field := Inventory.tags_relation; attr_name := "tags_ids"; ids_only := true |} ].
Proof. reflexivity. Qed.

(** ** Lookup resolution *)

(** C6. With a secondary lookup field configured, and the declared type of
    the primary key being the first of the type choices, a value of
    another type is looked up on the secondary field and a value of that
    type on the primary key; with no secondary lookup field every value is
    looked up on the primary key. *)
Theorem lookup_expr_by_type (self : GenericModelViewSet) (pk : PyValue) :
  (∀ secondary pk_type others,
     secondary_lookup_field (cls self) = Some secondary →
     _pk_type_choices (cls self) = pk_type :: others →
     (py_type pk ≠ pk_type → lookup_expr self pk = inr (ExprEq secondary pk))
     ∧ (py_type pk = pk_type →
        lookup_expr self pk = inr (ExprEq (pk_field self) pk)))
  ∧ (secondary_lookup_field (cls self) = None →
     lookup_expr self pk = inr (ExprEq (pk_field self) pk)).
Proof.
  unfold lookup_expr. split.
  - intros secondary pk_type others -> ->. split; intros Htype.
    + by rewrite bool_decide_eq_true_2.
    + by rewrite bool_decide_eq_false_2 by (by intros []).
  - by intros ->.
Qed.

Lemma lookup_expr_by_type_witness :
  lookup_expr Inventory.viewset (VStr "blue-kettle")
  = inr (ExprEq Inventory.slug_field (VStr "blue-kettle"))
  ∧ lookup_expr Inventory.viewset (VInt 7) = inr (ExprEq Inventory.id_field (VInt 7))
  ∧ lookup_expr Catalog.viewset (VStr "blue-kettle")
    = inr (ExprEq Catalog.id_field (VStr "blue-kettle")).
Proof.
  split; [|split].
  - apply (proj1 (lookup_expr_by_type Inventory.viewset (VStr "blue-kettle"))
             Inventory.slug_field TInt [TStr] eq_refl eq_refl).
    discriminate.
  - apply (proj1 (lookup_expr_by_type Inventory.viewset (VInt 7))
             Inventory.slug_field TInt [TStr] eq_refl eq_refl).
    reflexivity.
  - apply (proj2 (lookup_expr_by_type Catalog.viewset (VStr "blue-kettle"))).
    reflexivity.
Defined.

(** A constructed viewset with a secondary lookup field has a declared
    primary-key type: [lookup_expr] raises nothing on it. *)
Lemma init_pk_type_choices (c : ViewSetClass) (model : option ModelClass)
    (self : GenericModelViewSet) (secondary : DBField) :
  init c model = inr self →
  secondary_lookup_field c = Some secondary →
  cls self = c
  ∧ ∃ pk_type other others, _pk_type_choices c = pk_type :: other :: others.
Proof.
  unfold init, validate_model. intros Hinit Hsecondary.
  rewrite Hsecondary in Hinit.
  repeat (case_match; simplify_eq/=; try done).
  split; [done|].
  destruct (_pk_type_choices c) as [|pk_type [|other others]];
    simpl in *; try done.
  by exists pk_type, other, others.
Qed.

(** ** Construction *)

(** C9. With a secondary lookup field configured, construction raises an
    assertion error when there is at most one primary-key type choice or
    when the field is not unique, and then no viewset exists to serve a
    request. With no such field, or with more than one type choice and a
    unique field, [validate_model] behaves as if no secondary lookup field
    were configured, and accepts a model that passes the model checks. *)
Theorem secondary_lookup_validated_at_construction
    (c : ViewSetClass) (model : option ModelClass) :
  (∀ secondary,
     secondary_lookup_field c = Some secondary →
     List.length (_pk_type_choices c) ≤ 1 ∨ fld_unique secondary = false →
     (∃ msg, validate_model c (default (class_model c) model)
             = inl (AssertionError msg))
     ∧ (∃ msg, init c model = inl (AssertionError msg)))
  ∧ (secondary_lookup_field c = None
     ∨ (∃ secondary, secondary_lookup_field c = Some secondary
                     ∧ 1 < List.length (_pk_type_choices c)
                     ∧ fld_unique secondary = true) →
     ∀ m, validate_model c m = validate_model (without_secondary_lookup c) m
          ∧ (is_class m = true → is_model_subclass m = true →
             has_db m = true → has_manager m = true →
             validate_model c m = inr m)).
Proof.
  split.
  - intros secondary Hsecondary Hbad.
    assert (∃ msg, validate_model c (default (class_model c) model)
                   = inl (AssertionError msg)) as [msg Hmsg].
    { unfold validate_model. rewrite Hsecondary.
      destruct (is_class _); simpl; [|eauto].
      destruct (is_model_subclass _); simpl; [|eauto].
      destruct (has_db _); simpl; [|eauto].
      destruct (has_manager _); simpl; [|eauto].
      destruct (1 <? _) eqn:Hlen; simpl; [|eauto].
      destruct (fld_unique secondary) eqn:Hunique; simpl; [|eauto].
      apply Nat.ltb_lt in Hlen. destruct Hbad; [lia | done]. }
    split; [by exists msg|]. exists msg. unfold init. by rewrite Hmsg.
  - intros Hvalid m. unfold validate_model.
    destruct Hvalid as [-> | (secondary & -> & Hlen & ->)]; simpl.
    + split; [done|]. by intros -> -> -> ->.
    + apply Nat.ltb_lt in Hlen. rewrite Hlen. simpl.
      split; [done|]. by intros -> -> -> ->.
Qed.

Example init_one_type_choice :
  init Requests.OneTypeViewSet None
  = inl (AssertionError "Secondary lookup field type must be set").
Proof. reflexivity. Qed.

Example init_non_unique :
  init Requests.NonUniqueViewSet None
  = inl (AssertionError "Non unique secondary lookup field").
Proof. reflexivity. Qed.

Lemma secondary_lookup_validated_at_construction_witness :
  (∃ msg, init Requests.OneTypeViewSet None = inl (AssertionError msg))
  ∧ (∃ msg, init Requests.NonUniqueViewSet None = inl (AssertionError msg))
  ∧ validate_model Inventory.ItemViewSet Inventory.Item = inr Inventory.Item.
Proof.
  split; [|split].
  - apply (proj1 (secondary_lookup_validated_at_construction
                    Requests.OneTypeViewSet None) Inventory.slug_field eq_refl).
    left. simpl. lia.
  - apply (proj1 (secondary_lookup_validated_at_construction
                    Requests.NonUniqueViewSet None) Inventory.name_field eq_refl).
    right. reflexivity.
  - apply (proj2 (secondary_lookup_validated_at_construction
                    Inventory.ItemViewSet None)); try reflexivity.
    right. exists Inventory.slug_field. repeat split. simpl. lia.
Defined.

(** ** Create and update *)

Section Orchestrators.

Variable storage : Storage.
Variable is_iterable : PyValue → bool.

(** The loop of [update] over the relation-sync pairs: it writes the
    pairs in order and stops at the first write that raises. *)
Lemma update_relations_trace (pk : PyValue) (related : list ModelRelation)
    (tr : Trace) :
  ∃ n result,
    for_each related (λ '(field, ids), set_related storage pk field ids) tr
    = (result, tr ++ relation_writes pk (take n related))
    ∧ n ≤ List.length related
    ∧ ((result = inr () ∧ n = List.length related)
       ∨ ∃ e, result = inl (UnhandledDbError e)).
Proof.
  revert tr. induction related as [|[field ids] related IH]; intros tr.
  - exists 0, (inr ()). simpl. unfold ret. rewrite app_nil_r. auto.
  - destruct (IH (tr ++ [SetRelated pk field ids]))
      as (n & result & Hrun & Hn & Hres).
    cbn [for_each]. unfold bind at 1.
    unfold set_related at 1, storage_call at 1.
    destruct (on_set_related storage tr pk field ids) as [e|[]].
    + exists 1, (inl (UnhandledDbError e)).
      split; [done|]. split; [simpl; lia|]. right. by exists e.
    + exists (S n), result. rewrite Hrun. simpl. rewrite <- app_assoc.
      split; [done|]. split; [lia|].
      destruct Hres as [[Hok ->] | Herr]; [left | right]; done.
Qed.

(** On a storage layer where relation writes succeed, the loop of
    [update] writes every pair. *)
Lemma update_relations_ok (pk : PyValue) (related : list ModelRelation)
    (tr : Trace) :
  (∀ tr' field ids, on_set_related storage tr' pk field ids = inr ()) →
  for_each related (λ '(field, ids), set_related storage pk field ids) tr
  = (inr (), tr ++ relation_writes pk related).
Proof.
  intros Hok. revert tr.
  induction related as [|[field ids] related IH]; intros tr.
  - simpl. unfold ret. by rewrite app_nil_r.
  - cbn [for_each]. unfold bind at 1.
    unfold set_related at 1, storage_call at 1. rewrite Hok.
    rewrite IH. simpl. by rewrite <- app_assoc.
Qed.

(** The loop of [create] writes the pairs whose set is not empty. *)
Lemma create_relations_ok (pk : PyValue) (related : list ModelRelation)
    (tr : Trace) :
  (∀ tr' field ids, on_set_related storage tr' pk field ids = inr ()) →
  for_each related
    (λ '(field, ids),
       if decide (ids = ∅) then ret () else set_related storage pk field ids) tr
  = (inr (), tr ++ relation_writes pk (filter (λ r, r.2 ≠ ∅) related)).
Proof.
  intros Hok. revert tr.
  induction related as [|[field ids] related IH]; intros tr.
  - simpl. unfold ret. by rewrite app_nil_r.
  - cbn [for_each]. unfold bind at 1. rewrite filter_cons. cbn [snd].
    destruct (decide (ids = ∅)) as [Hempty | Hne].
    + rewrite decide_False by (by intros []). unfold ret at 1. apply IH.
    + rewrite decide_True by done.
      unfold set_related at 1, storage_call at 1. rewrite Hok.
      rewrite IH. simpl. by rewrite <- app_assoc.
Qed.

(** [get_object_or_404] starts with one fetch of the base query for the
    requested fields, filtered by the lookup predicate. *)
Lemma get_object_or_404_fetches (self : GenericModelViewSet) (pk : PyValue)
    (fields : ResponseFieldsDict) (base : Query) (expr : Expression)
    (tr : Trace) :
  get_base_query self fields = inr base →
  lookup_expr self pk = inr expr →
  ∃ result later,
    get_object_or_404 storage self pk (Some fields) tr
    = (result, tr ++ Get (where_ base [expr]) :: later).
Proof.
  intros Hbase Hexpr. unfold get_object_or_404, bind, lift.
  change (default [] (Some fields)) with fields.
  rewrite Hbase, Hexpr. simpl.
  unfold manager_get, storage_call.
  change (apply_query_filters self base None) with base.
  destruct (on_get storage tr _) as [[|detail]|obj]; simpl; eauto.
  destruct (build_prefetch_config self fields) as [|p config]; [unfold ret; eauto|].
  unfold get_related, storage_call.
  destruct (on_get_related storage _ _ _) as [e|related]; simpl;
    rewrite <- app_assoc; unfold ret; eauto.
Qed.

End Orchestrators.

(** C7. When the body of a create request decodes to no column assignment,
    [create] raises [Unprocessable] and makes no call to the storage layer:
    no insert and no relation write, whatever relation-sync pairs were
    decoded. *)
Theorem create_without_columns_is_unprocessable
    (storage : Storage) (is_iterable : PyValue → bool)
    (self : GenericModelViewSet) (body : Schema)
    (related : list ModelRelation) (tr : Trace)
    (Hdecoded : serialize_request_body_for_db is_iterable self body true
                = inr (∅, related)) :
  create storage is_iterable self body tr
  = (inl (Unprocessable "Empty request body"), tr).
Proof.
  unfold create, bind, lift. rewrite Hdecoded. by rewrite decide_True.
Qed.

Lemma create_without_columns_is_unprocessable_witness :
  create Requests.accepting Requests.is_iterable Inventory.viewset
    Requests.relations_only []
  = (inl (Unprocessable "Empty request body"), []).
Proof.
  apply (create_without_columns_is_unprocessable
           Requests.accepting Requests.is_iterable Inventory.viewset
           Requests.relations_only
           [(Inventory.tags_relation, {[ KInt 3; KInt 4 ]})] []).
  vm_compute. reflexivity.
Defined.

(** C8. On a storage layer where relation writes succeed: [create], after
    its insert has returned a key, writes the relation-sync pairs whose
    id-set is not empty, and no other; [update] writes every relation-sync
    pair, those with an empty id-set too, after its UPDATE when there are
    columns to assign. *)
Theorem relation_sync_on_create_and_update
    (storage : Storage) (is_iterable : PyValue → bool)
    (self : GenericModelViewSet)
    (Hwrites : ∀ tr pk field ids,
                 on_set_related storage tr pk field ids = inr ()) :
  (∀ body data related new_pk tr,
     serialize_request_body_for_db is_iterable self body true
     = inr (data, related) →
     data ≠ ∅ →
     on_execute storage tr (insert (model_name (model self)) data) = inr new_pk →
     py_truthy new_pk = true →
     create storage is_iterable self body tr
     = (inr new_pk,
        tr ++ Execute (insert (model_name (model self)) data)
           :: relation_writes new_pk (filter (λ r, r.2 ≠ ∅) related)))
  ∧ (∀ pk body data related tr,
       serialize_request_body_for_db is_iterable self body false
       = inr (data, related) →
       (data = ∅ →
        update storage is_iterable self pk body tr
        = (inr pk, tr ++ relation_writes pk related))
       ∧ (∀ expr updated,
            data ≠ ∅ →
            lookup_expr self pk = inr expr →
            on_execute storage tr
              (where_ (update_query (model_name (model self)) data) [expr])
            = inr updated →
            py_truthy updated = true →
            update storage is_iterable self pk body tr
            = (inr pk,
               tr ++ Execute (where_ (update_query (model_name (model self)) data)
                                [expr])
                  :: relation_writes pk related))).
Proof.
  split.
  - intros body data related new_pk tr Hdecoded Hdata Hinsert Hkey.
    unfold create, bind, lift. rewrite Hdecoded. rewrite decide_False by done.
    unfold db_errors_handler at 1, perform_create, manager_execute, storage_call.
    rewrite Hinsert, Hkey. simpl.
    unfold db_errors_handler. rewrite create_relations_ok by (intros; apply Hwrites).
    unfold ret. by rewrite <- app_assoc.
  - intros pk body data related tr Hdecoded. split.
    + intros ->. unfold update, bind, lift. rewrite Hdecoded.
      rewrite decide_True by done. unfold ret at 1.
      unfold db_errors_handler. rewrite update_relations_ok by (intros; apply Hwrites).
      done.
    + intros expr updated Hdata Hexpr Hupdate Hrows.
      unfold update, bind, lift. rewrite Hdecoded. rewrite decide_False by done.
      unfold db_errors_handler at 1, perform_update, bind, lift.
      rewrite Hexpr.
      change (apply_query_filters self
                (update_query (model_name (model self)) data) None)
        with (update_query (model_name (model self)) data).
      unfold manager_execute, storage_call. rewrite Hupdate, Hrows. simpl.
      unfold db_errors_handler. rewrite update_relations_ok by (intros; apply Hwrites).
      unfold ret. by rewrite <- app_assoc.
Qed.

Lemma relation_sync_on_create_and_update_witness :
  create Requests.accepting Requests.is_iterable Inventory.viewset
    Requests.renamed_untagged []
  = (inr (VInt 1), [Execute (insert "Item" Requests.renamed_untagged_data)])
  ∧ update Requests.accepting Requests.is_iterable Inventory.viewset (VInt 5)
      Requests.renamed_untagged []
    = (inr (VInt 5),
       [Execute (where_ (update_query "Item" Requests.renamed_untagged_data)
                   [ExprEq Inventory.id_field (VInt 5)]);
        SetRelated (VInt 5) Inventory.tags_relation ∅])
  ∧ update Requests.accepting Requests.is_iterable Inventory.viewset (VInt 5)
      Requests.relations_only []
    = (inr (VInt 5),
       [SetRelated (VInt 5) Inventory.tags_relation {[ KInt 3; KInt 4 ]}]).
Proof.
  destruct (relation_sync_on_create_and_update
              Requests.accepting Requests.is_iterable Inventory.viewset
              (λ _ _ _ _, eq_refl)) as [Hcreate Hupdate].
  split; [|split].
  - etrans;
      [apply (Hcreate Requests.renamed_untagged Requests.renamed_untagged_data
                [(Inventory.tags_relation, ∅)] (VInt 1) [])
      | vm_compute; reflexivity].
    + vm_compute. reflexivity.
    + apply insert_non_empty.
    + reflexivity.
    + reflexivity.
  - assert (serialize_request_body_for_db Requests.is_iterable Inventory.viewset
              Requests.renamed_untagged false
            = inr (Requests.renamed_untagged_data, [(Inventory.tags_relation, ∅)]))
      as Hdecoded by (vm_compute; reflexivity).
    apply (proj2 (Hupdate (VInt 5) _ _ _ [] Hdecoded)
             (ExprEq Inventory.id_field (VInt 5)) (VInt 1)).
    + apply insert_non_empty.
    + reflexivity.
    + reflexivity.
    + reflexivity.
  - assert (serialize_request_body_for_db Requests.is_iterable Inventory.viewset
              Requests.relations_only false
            = inr (∅, [(Inventory.tags_relation, {[ KInt 3; KInt 4 ]})]))
      as Hdecoded by (vm_compute; reflexivity).
    apply (proj1 (Hupdate (VInt 5) _ _ _ [] Hdecoded)).
    reflexivity.
Defined.

(** C10. When the body of an update request decodes to no column
    assignment, [update] executes no UPDATE and raises neither
    [Unprocessable] nor [ServerError]: its only calls are relation writes,
    in the order of the decoded pairs, and it either returns the supplied
    key after writing every pair or stops at a relation write that the
    storage layer rejects. Where relation writes succeed it writes every
    pair and returns the supplied key, and the dispatcher then re-fetches
    the object with the full response field set. *)
Theorem update_without_columns
    (storage : Storage) (is_iterable : PyValue → bool)
    (self : GenericModelViewSet) (pk : PyValue) (body : Schema)
    (related : list ModelRelation) (tr : Trace)
    (Hdecoded : serialize_request_body_for_db is_iterable self body false
                = inr (∅, related)) :
  (∃ n result,
     update storage is_iterable self pk body tr
     = (result, tr ++ relation_writes pk (take n related))
     ∧ ((result = inr pk ∧ n = List.length related)
        ∨ ∃ e, result = inl (HandledDbError e)))
  ∧ ((∀ tr' field ids, on_set_related storage tr' pk field ids = inr ()) →
     update storage is_iterable self pk body tr
     = (inr pk, tr ++ relation_writes pk related)
     ∧ perform_api_action_update storage is_iterable self pk body tr
       = get_object_or_404 storage self pk
           (Some (_response_fields_full_config (cls self)))
           (tr ++ relation_writes pk related)
     ∧ ∀ base expr,
         get_base_query self (_response_fields_full_config (cls self))
         = inr base →
         lookup_expr self pk = inr expr →
         ∃ result later,
           perform_api_action_update storage is_iterable self pk body tr
           = (result,
              tr ++ relation_writes pk related
                 ++ Get (where_ base [expr])
                 :: later)).
Proof.
  assert (update storage is_iterable self pk body tr
          = match
              db_errors_handler
                (for_each related
                   (λ '(field, ids), set_related storage pk field ids)) tr
            with
            | (inr _, tr') => (inr pk, tr')
            | (inl e, tr') => (inl e, tr')
            end) as Hupdate.
  { unfold update, bind, lift. rewrite Hdecoded. by rewrite decide_True. }
  split.
  - rewrite Hupdate. unfold db_errors_handler.
    destruct (update_relations_trace storage pk related tr)
      as (n & result & -> & Hn & [[-> ->] | [e ->]]).
    + exists (List.length related), (inr pk). auto.
    + exists n, (inl (HandledDbError e)). split; [done|]. right. by exists e.
  - intros Hwrites.
    assert (update storage is_iterable self pk body tr
            = (inr pk, tr ++ relation_writes pk related)) as Hok.
    { rewrite Hupdate. unfold db_errors_handler.
      by rewrite update_relations_ok. }
    assert (perform_api_action_update storage is_iterable self pk body tr
            = get_object_or_404 storage self pk
                (Some (_response_fields_full_config (cls self)))
                (tr ++ relation_writes pk related)) as Hfetch.
    { unfold perform_api_action_update, generic_perform_api_action, bind.
      by rewrite Hok. }
    split; [done|]. split; [done|].
    intros base expr Hbase Hexpr. rewrite Hfetch.
    destruct (get_object_or_404_fetches storage self pk
                (_response_fields_full_config (cls self)) base expr
                (tr ++ relation_writes pk related) Hbase Hexpr)
      as (result & later & ->).
    exists result, later. by rewrite <- app_assoc.
Qed.

(** The base query of the full response field set of the item viewset. *)
Example inventory_full_query :
  get_base_query Inventory.viewset
    ["id"; "name"; "slug"; "display_name"; "category_id"; "tags_ids"]
  = inr (select "Item"
           {[ SelField Inventory.id_field; SelField Inventory.name_field;
              SelField Inventory.slug_field; SelField Inventory.category_field ]}).
Proof. vm_compute. reflexivity. Qed.

Lemma update_without_columns_witness :
  update Requests.accepting Requests.is_iterable Inventory.viewset (VInt 5)
    Requests.relations_only []
  = (inr (VInt 5),
     [SetRelated (VInt 5) Inventory.tags_relation {[ KInt 3; KInt 4 ]}])
  ∧ ∃ result later,
      perform_api_action_update Requests.accepting Requests.is_iterable
        Inventory.viewset (VInt 5) Requests.relations_only []
      = (result,
         [SetRelated (VInt 5) Inventory.tags_relation {[ KInt 3; KInt 4 ]};
          Get (where_
                 (select "Item"
                    {[ SelField Inventory.id_field; SelField Inventory.name_field;
                       SelField Inventory.slug_field;
                       SelField Inventory.category_field ]})
                 [ExprEq Inventory.id_field (VInt 5)])]
         ++ later).
Proof.
  assert (serialize_request_body_for_db Requests.is_iterable Inventory.viewset
            Requests.relations_only false
          = inr (∅, [(Inventory.tags_relation, {[ KInt 3; KInt 4 ]})]))
    as Hdecoded by (vm_compute; reflexivity).
  destruct (update_without_columns Requests.accepting Requests.is_iterable
              Inventory.viewset (VInt 5) _ _ [] Hdecoded) as [_ Hwrites].
  destruct (Hwrites (λ _ _ _, eq_refl)) as (Hupdate & _ & Hfetch).
  split; [exact Hupdate|].
  exact (Hfetch _ (ExprEq Inventory.id_field (VInt 5))
           inventory_full_query eq_refl).
Defined.

Example refetch_after_update :
  perform_api_action_update Requests.accepting Requests.is_iterable
    Inventory.viewset (VInt 5) Requests.relations_only []
  = (inr {| obj_pk := VInt 1; obj_attrs := ∅ |},
     [SetRelated (VInt 5) Inventory.tags_relation {[ KInt 3; KInt 4 ]};
      Get (where_
             (select "Item"
                {[ SelField Inventory.id_field; SelField Inventory.name_field;
                   SelField Inventory.slug_field;
                   SelField Inventory.category_field ]})
             [ExprEq Inventory.id_field (VInt 5)]);
      GetRelated (VInt 1)
        [ {| field := Inventory.tags_relation; attr_name := "tags_ids";
             ids_only := true |} ]]).
Proof. vm_compute. reflexivity. Qed.

(** * Further properties of the code *)

(** ** The query planner *)

(** A requested name that is a column other than a foreign key. *)
Lemma field_plan_plain (self : GenericModelViewSet) (n : string) (f : DBField) :
  _model_fields self !! n = Some f →
  fk_rel_model f = None →
  field_plan self n = ({[ SelField f ]}, ∅).
Proof.
  intros Hn Hkind. unfold field_plan. rewrite Hn. simpl.
  unfold fk_rel_model in Hkind.
  destruct (fld_kind f); try done; f_equal; set_solver.
Qed.

(** A requested name selects a related model exactly when it joins it. *)
Lemma field_plan_model_iff_joined (self : GenericModelViewSet)
    (n : string) (m : ModelRef) :
  SelModel m ∈ (field_plan self n).1 ↔ m ∈ (field_plan self n).2.
Proof.
  unfold field_plan, plan_field.
  destruct (_model_fields self !! n) as [f|].
  - destruct (fld_kind f); simpl; set_solver.
  - destruct (PyStr.endswith n FK_FIELD_POSTFIX); simpl.
    + destruct (_model_fields self !! _); simpl; set_solver.
    + set_unfold. split.
      * intros [(x & [= ->] & Hx) | [(x & [=] & _) | []]]. by left.
      * intros [Hm | []]. left. by exists m.
Qed.

(** The planner raises nothing but [ValueError], and every query it
    returns names something to select, on the viewset's model, and carries
    no predicate of its own. *)
Theorem base_query_shape (self : GenericModelViewSet)
    (fields : ResponseFieldsDict) :
  (∀ e, get_base_query self fields = inl e → e = ValueError)
  ∧ (∀ query,
       get_base_query self fields = inr query →
       q_model query = model_name (model self)
       ∧ q_where query = []
       ∧ ∃ columns, q_stmt query = SELECT columns ∧ columns ≠ ∅).
Proof.
  split.
  - intros e He. by apply get_base_query_inl in He as [-> _].
  - intros query [-> _]%get_base_query_inr. simpl.
    split; [done|]. split; [done|].
    eexists. split; [done|]. case_decide; [set_solver | done].
Qed.

Lemma base_query_shape_witness :
  (∀ e, get_base_query Ambiguous.viewset ["title"; "author"] = inl e →
        e = ValueError)
  ∧ (∀ query,
       get_base_query Inventory.viewset ["name"; "category"] = inr query →
       q_model query = model_name (model Inventory.viewset)
       ∧ q_where query = []
       ∧ ∃ columns, q_stmt query = SELECT columns ∧ columns ≠ ∅).
Proof.
  split.
  - apply (base_query_shape Ambiguous.viewset ["title"; "author"]).
  - apply (base_query_shape Inventory.viewset ["name"; "category"]).
Defined.

Example base_query_shape_instances :
  get_base_query Ambiguous.viewset ["title"; "author"] = inl ValueError
  ∧ get_base_query Inventory.viewset ["name"; "category"]
    = inr {| q_model := "Item";
             q_stmt := SELECT {[ SelField Inventory.name_field;
                                 SelModel "Category" ]};
             q_joins := {[ {| join_src := "Item"; join_dest := "Category";
                              join_type := LEFT_OUTER |} ]};
             q_where := [] |}.
Proof. split; vm_compute; reflexivity. Qed.

(** The outcome of the planner depends on the set of requested names
    only: neither their order nor repetitions matter. *)
Theorem base_query_of_same_names (self : GenericModelViewSet)
    (fields fields' : ResponseFieldsDict)
    (Hsame : ∀ n, n ∈ fields ↔ n ∈ fields') :
  get_base_query self fields = get_base_query self fields'.
Proof.
  rewrite !get_base_query_eq. simpl.
  assert (∀ {A} `{Countable A} (g : string → gset A),
            ⋃ (g <$> fields) = ⋃ (g <$> fields')) as Hunion.
  { intros A ?? g. apply set_eq. intros x. rewrite !elem_of_plans.
    by setoid_rewrite Hsame. }
  by rewrite !Hunion.
Qed.

Lemma base_query_of_same_names_witness :
  get_base_query Inventory.viewset ["category"; "name"; "category"; "tags"]
  = get_base_query Inventory.viewset ["tags"; "name"; "category"].
Proof.
  apply base_query_of_same_names. intros n. set_solver.
Defined.

(** Requesting more names never removes a join, and removes nothing from
    the selection but the primary key selected for want of anything
    else; and when the larger request gives a query, so does the
    smaller. *)
Theorem base_query_grows (self : GenericModelViewSet)
    (fields fields' : ResponseFieldsDict)
    (Hmore : ∀ n, n ∈ fields → n ∈ fields') :
  (∀ query query',
     get_base_query self fields = inr query →
     get_base_query self fields' = inr query' →
     q_joins query ⊆ q_joins query'
     ∧ ∀ x, x ∈ selection query →
            x ∈ selection query'
            ∨ (x = SelField (pk_field self)
               ∧ query
                 = select (model_name (model self))
                     {[ SelField (pk_field self) ]}))
  ∧ (∀ query',
       get_base_query self fields' = inr query' →
       ∃ query, get_base_query self fields = inr query).
Proof.
  split.
  - intros query query' Hquery Hquery'. split.
    + rewrite (joins_get_base_query self fields query Hquery).
      rewrite (joins_get_base_query self fields' query' Hquery').
      intros j (m & -> & Hm)%elem_of_map.
      apply elem_of_map. exists m. split; [done|].
      apply elem_of_plans in Hm as (n & Hn & Hm). apply elem_of_plans.
      exists n. auto.
    + intros x Hx.
      pose proof Hquery as [Hclosed _]%get_base_query_inr.
      rewrite Hclosed in Hx. unfold selection in Hx. simpl in Hx.
      case_decide as Hempty.
      * right. apply elem_of_singleton in Hx as ->. split; [done|].
        rewrite Hclosed.
        assert (⋃ ((λ n, (field_plan self n).2) <$> fields) = ∅) as ->.
        { apply set_eq. intros m. split; [|set_solver].
          intros (n & Hn & Hm)%elem_of_plans.
          apply field_plan_model_iff_joined in Hm.
          assert (SelModel m ∈ ⋃ ((λ n, (field_plan self n).1) <$> fields))
            as Hin.
          { apply elem_of_plans. by exists n. }
          rewrite Hempty in Hin. set_solver. }
        by rewrite set_map_empty.
      * left. apply (selection_get_base_query self fields' query' _ Hquery').
        apply elem_of_plans in Hx as (n & Hn & Hx). apply elem_of_plans.
        exists n. auto.
  - intros query' [_ Hall]%get_base_query_inr.
    apply get_base_query_returns. intros m (n & Hn & Hm)%elem_of_plans.
    apply Hall, elem_of_plans. exists n. auto.
Qed.

Lemma base_query_grows_witness :
  ∃ query query',
    get_base_query Inventory.viewset ["category"] = inr query
    ∧ get_base_query Inventory.viewset ["name"; "category"] = inr query'
    ∧ q_joins query ⊆ q_joins query'
    ∧ ∀ x, x ∈ selection query →
           x ∈ selection query'
           ∨ (x = SelField Inventory.id_field
              ∧ query = select "Item" {[ SelField Inventory.id_field ]}).
Proof.
  destruct (base_query_grows Inventory.viewset ["category"] ["name"; "category"])
    as [Hgrows _].
  { intros n Hn. set_solver. }
  destruct (get_base_query Inventory.viewset ["category"])
    as [e|query] eqn:Hquery.
  { exfalso. vm_compute in Hquery. discriminate Hquery. }
  destruct (get_base_query Inventory.viewset ["name"; "category"])
    as [e|query'] eqn:Hquery'.
  { exfalso. vm_compute in Hquery'. discriminate Hquery'. }
  exists query, query'. split; [reflexivity|]. split; [reflexivity|].
  by apply Hgrows.
Defined.

Lemma unknown_fields_select_pk_witness :
  get_base_query Inventory.viewset ["tags"; "tags_ids"; "colour"]
  = inr (select "Item" {[ SelField Inventory.id_field ]}).
Proof.
  apply (unknown_fields_select_pk Inventory.viewset ["tags"; "tags_ids"; "colour"]).
  intros n Hn.
  apply elem_of_cons in Hn as [-> | Hn]; [by vm_compute|].
  apply elem_of_cons in Hn as [-> | Hn]; [by vm_compute|].
  apply elem_of_cons in Hn as [-> | Hn]; [by vm_compute|].
  by apply not_elem_of_nil in Hn.
Defined.

(** In every query the planner returns, a related model is selected
    exactly when it is joined: the planner neither joins a model it does
    not select nor selects one it does not join. *)
Theorem base_query_selects_what_it_joins (self : GenericModelViewSet)
    (fields : ResponseFieldsDict) (query : Query) (m : ModelRef)
    (Hquery : get_base_query self fields = inr query) :
  SelModel m ∈ selection query
  ↔ {| join_src := model_name (model self);
       join_dest := m;
       join_type := LEFT_OUTER |} ∈ q_joins query.
Proof.
  apply get_base_query_inr in Hquery as [-> _]. unfold selection. simpl.
  assert (SelModel m ∈ ⋃ ((λ n, (field_plan self n).1) <$> fields)
          ↔ m ∈ ⋃ ((λ n, (field_plan self n).2) <$> fields)) as Hiff.
  { rewrite !elem_of_plans.
    split; intros (n & Hn & Hm); exists n;
      (split; [done|]); by apply field_plan_model_iff_joined. }
  rewrite elem_of_map. split.
  - intros Hm. exists m. split; [done|]. apply Hiff.
    case_decide as Hempty; [set_solver | done].
  - intros (m' & [= <-] & Hm). apply Hiff in Hm.
    case_decide as Hempty; [|done]. rewrite Hempty in Hm. set_solver.
Qed.

Lemma base_query_selects_what_it_joins_witness :
  ∃ query,
    get_base_query Inventory.viewset ["name"; "category"] = inr query
    ∧ (SelModel "Category" ∈ selection query
       ↔ {| join_src := "Item"; join_dest := "Category";
            join_type := LEFT_OUTER |} ∈ q_joins query).
Proof.
  destruct (get_base_query Inventory.viewset ["name"; "category"])
    as [e|query] eqn:Hquery.
  { exfalso. vm_compute in Hquery. discriminate Hquery. }
  exists query. split; [reflexivity|].
  apply (base_query_selects_what_it_joins Inventory.viewset
           ["name"; "category"] query "Category" Hquery).
Defined.

(** A requested name that is a column other than a foreign key puts that
    column into the selection and adds no join (the request gives a query
    exactly when the request without the name does); requested alone it
    gives a query on that column. *)
Theorem plain_column_selected_without_join
    (self : GenericModelViewSet) (fields : ResponseFieldsDict)
    (n : string) (f : DBField)
    (Hcolumn : _model_fields self !! n = Some f)
    (Hplain : fk_rel_model f = None)
    (Hrequested : n ∈ fields) :
  (∀ query,
     get_base_query self fields = inr query →
     SelField f ∈ selection query
     ∧ ∃ query',
         get_base_query self (filter (λ n', n' ≠ n) fields) = inr query'
         ∧ q_joins query = q_joins query')
  ∧ (∀ query',
       get_base_query self (filter (λ n', n' ≠ n) fields) = inr query' →
       ∃ query, get_base_query self fields = inr query
                ∧ q_joins query = q_joins query')
  ∧ get_base_query self [n]
    = inr (select (model_name (model self)) {[ SelField f ]}).
Proof.
  pose proof (field_plan_plain self n f Hcolumn Hplain) as Hplan.
  pose proof (joined_without self fields n) as Hjoined.
  rewrite Hplan in Hjoined. specialize (Hjoined eq_refl).
  split; [|split].
  - intros query Hquery. split.
    + apply (selection_get_base_query self fields query _ Hquery), elem_of_plans.
      exists n. split; [done|]. rewrite Hplan. set_solver.
    + by apply (get_base_query_same_joined self fields).
  - intros query' Hquery'.
    destruct (get_base_query_same_joined self _ fields query'
                (eq_sym Hjoined) Hquery') as (query & Hquery & Hjoins).
    by exists query.
  - rewrite get_base_query_no_join; simpl; rewrite Hplan; simpl;
      rewrite !(right_id_L ∅ (∪)); [|done].
    by rewrite decide_False by set_solver.
Qed.

Lemma plain_column_selected_without_join_witness :
  (∃ query,
     get_base_query Inventory.viewset ["category"; "name"] = inr query
     ∧ SelField Inventory.name_field ∈ selection query
     ∧ ∃ query',
         get_base_query Inventory.viewset
           (filter (λ n', n' ≠ "name") ["category"; "name"]) = inr query'
         ∧ q_joins query = q_joins query')
  ∧ get_base_query Inventory.viewset ["name"]
    = inr (select "Item" {[ SelField Inventory.name_field ]}).
Proof.
  destruct (plain_column_selected_without_join Inventory.viewset
              ["category"; "name"] "name" Inventory.name_field
              eq_refl eq_refl
              ltac:(apply list_elem_of_further, list_elem_of_here))
    as (Hselected & _ & Halone).
  split; [|exact Halone].
  destruct (get_base_query Inventory.viewset ["category"; "name"])
    as [e|query] eqn:Hquery.
  { exfalso. vm_compute in Hquery. discriminate Hquery. }
  exists query. split; [reflexivity|]. by apply Hselected.
Defined.

(** The foreign-key suffix is resolved against any column: when [f] is a
    column of whatever kind and [f_id] is not one, requesting [f_id]
    selects the column [f], and requested alone joins nothing. *)
Theorem fk_suffix_resolves_any_column
    (self : GenericModelViewSet) (fields : ResponseFieldsDict)
    (f : string) (column : DBField)
    (Hcolumn : _model_fields self !! f = Some column)
    (Hfree : _model_fields self !! (f +:+ FK_FIELD_POSTFIX) = None)
    (Hrequested : f +:+ FK_FIELD_POSTFIX ∈ fields) :
  (∀ query,
     get_base_query self fields = inr query → SelField column ∈ selection query)
  ∧ get_base_query self [f +:+ FK_FIELD_POSTFIX]
    = inr (select (model_name (model self)) {[ SelField column ]}).
Proof.
  assert (field_plan self (f +:+ FK_FIELD_POSTFIX) = ({[ SelField column ]}, ∅))
    as Hplan.
  { rewrite field_plan_fk_id by (done || apply endswith_app).
    by rewrite drop_last_app, Hcolumn. }
  split.
  - intros query Hquery.
    apply (selection_get_base_query self fields query _ Hquery), elem_of_plans.
    exists (f +:+ FK_FIELD_POSTFIX). split; [done|]. rewrite Hplan. set_solver.
  - rewrite get_base_query_no_join; simpl; rewrite Hplan; simpl;
      rewrite !(right_id_L ∅ (∪)); [|done].
    by rewrite decide_False by set_solver.
Qed.

Lemma fk_suffix_resolves_any_column_witness :
  (∃ query,
     get_base_query Inventory.viewset ["id"; "name_id"] = inr query
     ∧ SelField Inventory.name_field ∈ selection query)
  ∧ get_base_query Inventory.viewset ["name" +:+ FK_FIELD_POSTFIX]
    = inr (select "Item" {[ SelField Inventory.name_field ]}).
Proof.
  destruct (fk_suffix_resolves_any_column Inventory.viewset ["id"; "name_id"]
              "name" Inventory.name_field eq_refl eq_refl
              ltac:(apply list_elem_of_further, list_elem_of_here))
    as [Hselected Halone].
  split; [|exact Halone].
  destruct (get_base_query Inventory.viewset ["id"; "name_id"])
    as [e|query] eqn:Hquery.
  { exfalso. vm_compute in Hquery. discriminate Hquery. }
  exists query. split; [reflexivity|]. by apply Hselected.
Defined.

(** ** Prefetch requests *)

(** The prefetch plan keeps the order of the request and has at most one
    entry per requested name: the attribute names of its entries form a
    sublist of the requested names. *)
Theorem prefetch_attrs_follow_request (self : GenericModelViewSet)
    (fields : ResponseFieldsDict) :
  sublist (attr_name <$> build_prefetch_config self fields) fields.
Proof.
  unfold build_prefetch_config.
  induction fields as [|n fields IH]; [done|].
  cbn [omap list_omap].
  destruct (manytomany (model self) !! _) as [relation|]; simpl.
  - by apply sublist_skip.
  - by apply sublist_cons.
Qed.

(** ** Filters *)

(** Filtering touches the predicates of a query only, and adds to them the
    equality predicates of the filter parameters that name a column, in
    the order of the parameters. *)
Theorem apply_query_filters_adds_predicates (self : GenericModelViewSet)
    (query : Query) (params : list (string * PyValue)) :
  let filtered := apply_query_filters self query (Some params) in
  q_model filtered = q_model query
  ∧ q_stmt filtered = q_stmt query
  ∧ q_joins filtered = q_joins query
  ∧ (∃ added, q_where filtered = q_where query ++ added
              ∧ ∀ e, e ∈ added
                     ↔ ∃ name value column,
                         (name, value) ∈ params
                         ∧ _model_fields self !! name = Some column
                         ∧ e = ExprEq column value).
Proof.
  unfold apply_query_filters.
  assert (∀ e, e ∈ get_query_filters self (Some params)
               ↔ ∃ name value column,
                   (name, value) ∈ params
                   ∧ _model_fields self !! name = Some column
                   ∧ e = ExprEq column value) as Hfilters.
  { intros e. unfold get_query_filters. rewrite list_elem_of_omap. split.
    - intros ([name value] & Hin & He).
      destruct (_model_fields self !! name) as [column|] eqn:Hcolumn; [|done].
      injection He as <-. by exists name, value, column.
    - intros (name & value & column & Hin & Hcolumn & ->).
      exists (name, value). split; [done|]. by rewrite Hcolumn. }
  destruct (get_query_filters self (Some params)) as [|e filters] eqn:Hget.
  - repeat split. exists []. by rewrite app_nil_r.
  - simpl. repeat split. by exists (e :: filters).
Qed.

(** Filter parameters that name no column are ignored: when none of them
    does, the query passes through as it is; so does it when there are no
    filter parameters. *)
Theorem unknown_filters_ignored (self : GenericModelViewSet)
    (query : Query) (params : list (string * PyValue))
    (Hunknown : ∀ name value,
                  (name, value) ∈ params → _model_fields self !! name = None) :
  apply_query_filters self query (Some params) = query
  ∧ apply_query_filters self query None = query.
Proof.
  split; [|done]. unfold apply_query_filters.
  assert (get_query_filters self (Some params) = []) as ->; [|done].
  unfold get_query_filters.
  induction params as [|[name value] params IH]; [done|].
  cbn [omap list_omap].
  rewrite (Hunknown name value) by apply list_elem_of_here.
  apply IH. intros name' value' Hin. apply (Hunknown name' value').
  by apply list_elem_of_further.
Qed.

Lemma unknown_filters_ignored_witness :
  apply_query_filters Inventory.viewset (select "Item" ∅)
    (Some [("colour", VStr "red"); ("tags", VInt 3)])
  = select "Item" ∅
  ∧ apply_query_filters Inventory.viewset (select "Item" ∅) None
    = select "Item" ∅.
Proof.
  apply (unknown_filters_ignored Inventory.viewset (select "Item" ∅)
           [("colour", VStr "red"); ("tags", VInt 3)]).
  intros name value Hin.
  apply elem_of_cons in Hin as [[= -> ->] | Hin]; [reflexivity|].
  apply elem_of_cons in Hin as [[= -> ->] | Hin]; [reflexivity|].
  by apply not_elem_of_nil in Hin.
Defined.

Example filters_on_columns :
  apply_query_filters Inventory.viewset (select "Item" ∅)
    (Some [("name", VStr "Kettle"); ("colour", VStr "red"); ("category", VInt 2)])
  = where_ (select "Item" ∅)
      [ExprEq Inventory.name_field (VStr "Kettle");
       ExprEq Inventory.category_field (VInt 2)].
Proof. reflexivity. Qed.

(** ** Construction *)

(** The length check of [get_validated_model_fields], in the terms of the
    source: a writable string column whose schema length is not set, is
    zero, or exceeds the length of the column. *)
Lemma maxlength_violated_iff (c : ViewSetClass) (n : string) (f : DBField) :
  maxlength_violated c n f = true
  ↔ ∃ max_length,
      fld_kind f = CharField max_length
      ∧ n ∈ get_writable_fields (schema c)
      ∧ ∀ k, get_field_max_length (schema c) n = Some k → k = 0 ∨ max_length < k.
Proof.
  unfold maxlength_violated. split.
  - destruct (fld_kind f) as [|max_length|]; try done.
    case_bool_decide as Hwritable; [|done].
    intros Hviolated. exists max_length. split; [done|]. split; [done|].
    intros k Hk. rewrite Hk in Hviolated. destruct k as [|k]; [by left|].
    right. by apply Nat.ltb_lt.
  - intros (max_length & -> & Hwritable & Hlength).
    rewrite bool_decide_eq_true_2 by done.
    destruct (get_field_max_length (schema c) n) as [[|k]|]; try done.
    destruct (Hlength (S k) eq_refl) as [|Hlt]; [done|]. by apply Nat.ltb_lt.
Qed.

(** The loop of [get_validated_model_fields]: what it returns holds the
    entries it started from and the items it went through, each checked. *)
Lemma validated_fields_loop_ok (c : ViewSetClass)
    (items : list (string * DBField)) (acc fields : gmap string DBField) :
  validated_fields_loop c items acc = inr fields →
  (∀ n f, fields !! n = Some f →
          acc !! n = Some f
          ∨ ((n, f) ∈ items ∧ maxlength_violated c n f = false))
  ∧ (∀ n, is_Some (acc !! n) ∨ n ∈ items.*1 → is_Some (fields !! n)).
Proof.
  revert acc. induction items as [|[n0 f0] items IH]; intros acc Hloop.
  - simpl in Hloop. injection Hloop as <-. split; [by left|].
    intros n [Hn | Hn]; [done | by apply not_elem_of_nil in Hn].
  - simpl in Hloop.
    destruct (maxlength_violated c n0 f0) eqn:Hcheck; [done|].
    destruct (IH _ Hloop) as [Hfrom Hto]. split.
    + intros n f Hn. destruct (Hfrom n f Hn) as [Hacc | [Hin Hok]].
      * destruct (decide (n0 = n)) as [-> | Hne].
        -- rewrite lookup_insert_eq in Hacc. injection Hacc as <-.
           right. split; [apply list_elem_of_here | done].
        -- rewrite lookup_insert_ne in Hacc by done. by left.
      * right. split; [by apply list_elem_of_further | done].
    + intros n Hn. apply Hto. rewrite fmap_cons in Hn. simpl in Hn.
      destruct (decide (n0 = n)) as [-> | Hne].
      * left. rewrite lookup_insert_eq. by eexists.
      * rewrite lookup_insert_ne by done.
        destruct Hn as [Hn | Hn]; [by left|].
        apply elem_of_cons in Hn as [-> | Hn]; [done | by right].
Qed.

(** The loop fails exactly when an item fails the length check. *)
Lemma validated_fields_loop_fails (c : ViewSetClass)
    (items : list (string * DBField)) (acc : gmap string DBField) :
  (∃ n f, (n, f) ∈ items ∧ maxlength_violated c n f = true)
  ↔ ∃ msg, validated_fields_loop c items acc = inl (AssertionError msg).
Proof.
  revert acc. induction items as [|[n0 f0] items IH]; intros acc; simpl.
  - split; [intros (n & f & Hin & _); by apply not_elem_of_nil in Hin|].
    by intros [msg Hmsg].
  - destruct (maxlength_violated c n0 f0) eqn:Hcheck.
    + split; [eauto|]. intros _. exists n0, f0.
      split; [apply list_elem_of_here | done].
    + rewrite <- IH. split.
      * intros (n & f & Hin & Hbad).
        apply elem_of_cons in Hin as [[= -> ->] | Hin]; [congruence|].
        by exists n, f.
      * intros (n & f & Hin & Hbad). exists n, f.
        split; [by apply list_elem_of_further | done].
Qed.

(** A constructed viewset is bound to what [__init__] was given: the
    model passed, or else the class attribute, which is a model class with
    a database and a manager; the primary key and the property
    dependencies are the model's. *)
Theorem init_binds_checked_model (c : ViewSetClass)
    (model_arg : option ModelClass) (self : GenericModelViewSet)
    (Hinit : init c model_arg = inr self) :
  cls self = c
  ∧ model self = default (class_model c) model_arg
  ∧ pk_field self = model_pk_field (model self)
  ∧ _model_props_dependencies self = map_props_dependencies (model self)
  ∧ is_class (model self) = true
  ∧ is_model_subclass (model self) = true
  ∧ has_db (model self) = true
  ∧ has_manager (model self) = true.
Proof.
  unfold init in Hinit.
  destruct (validate_model c _) as [e|m] eqn:Hvalid; [done|].
  destruct (get_validated_model_fields c m) as [e|fields]; [done|].
  injection Hinit as <-. simpl.
  unfold validate_model in Hvalid.
  destruct (is_class _) eqn:Hclass; simpl in Hvalid; [|done].
  destruct (is_model_subclass _) eqn:Hsub; simpl in Hvalid; [|done].
  destruct (has_db _) eqn:Hdb; simpl in Hvalid; [|done].
  destruct (has_manager _) eqn:Hmanager; simpl in Hvalid; [|done].
  assert (m = default (class_model c) model_arg) as ->.
  { repeat case_match; by simplify_eq. }
  done.
Qed.

Lemma init_binds_checked_model_witness :
  cls Inventory.viewset = Inventory.ItemViewSet
  ∧ model Inventory.viewset = default (class_model Inventory.ItemViewSet) None
  ∧ pk_field Inventory.viewset = model_pk_field (model Inventory.viewset)
  ∧ _model_props_dependencies Inventory.viewset
    = map_props_dependencies (model Inventory.viewset)
  ∧ is_class (model Inventory.viewset) = true
  ∧ is_model_subclass (model Inventory.viewset) = true
  ∧ has_db (model Inventory.viewset) = true
  ∧ has_manager (model Inventory.viewset) = true.
Proof.
  apply (init_binds_checked_model Inventory.ItemViewSet None Inventory.viewset).
  reflexivity.
Defined.

(** The columns of a constructed viewset are the entries of the model's
    field dictionary, none dropped and none invented, and every writable
    string column among them has a schema length that is set, positive
    and no greater than the length of the column. *)
Theorem init_keeps_checked_fields (c : ViewSetClass)
    (model_arg : option ModelClass) (self : GenericModelViewSet)
    (Hinit : init c model_arg = inr self) :
  (∀ n f, _model_fields self !! n = Some f → (n, f) ∈ model_fields (model self))
  ∧ (∀ n f, (n, f) ∈ model_fields (model self) →
            is_Some (_model_fields self !! n))
  ∧ (∀ n f max_length,
       _model_fields self !! n = Some f →
       fld_kind f = CharField max_length →
       n ∈ get_writable_fields (schema c) →
       ∃ k, get_field_max_length (schema c) n = Some k
            ∧ 0 < k ≤ max_length).
Proof.
  unfold init in Hinit.
  destruct (validate_model c _) as [e|m] eqn:Hvalid; [done|].
  destruct (get_validated_model_fields c m) as [e|fields] eqn:Hfields; [done|].
  injection Hinit as <-. simpl.
  apply validated_fields_loop_ok in Hfields as [Hfrom Hto].
  split; [|split].
  - intros n f Hn. destruct (Hfrom n f Hn) as [Hempty | [Hin _]]; [|done].
    by rewrite lookup_empty in Hempty.
  - intros n f Hin. apply Hto. right. apply list_elem_of_fmap.
    by exists (n, f).
  - intros n f max_length Hn Hkind Hwritable.
    destruct (Hfrom n f Hn) as [Hempty | [_ Hok]];
      [by rewrite lookup_empty in Hempty|].
    destruct (get_field_max_length (schema c) n) as [k|] eqn:Hk.
    + exists k. split; [done|].
      destruct (decide (0 < k ≤ max_length)) as [|Hout]; [done|].
      assert (maxlength_violated c n f = true) as Hbad; [|congruence].
      apply maxlength_violated_iff. exists max_length.
      split; [done|]. split; [done|]. intros k' Hk'. simplify_eq. lia.
    + assert (maxlength_violated c n f = true) as Hbad; [|congruence].
      apply maxlength_violated_iff. exists max_length.
      split; [done|]. split; [done|]. intros k' Hk'. congruence.
Qed.

Lemma init_keeps_checked_fields_witness :
  (∀ n f, _model_fields Inventory.viewset !! n = Some f →
          (n, f) ∈ model_fields (model Inventory.viewset))
  ∧ (∀ n f, (n, f) ∈ model_fields (model Inventory.viewset) →
            is_Some (_model_fields Inventory.viewset !! n))
  ∧ (∀ n f max_length,
       _model_fields Inventory.viewset !! n = Some f →
       fld_kind f = CharField max_length →
       n ∈ get_writable_fields (schema Inventory.ItemViewSet) →
       ∃ k, get_field_max_length (schema Inventory.ItemViewSet) n = Some k
            ∧ 0 < k ≤ max_length).
Proof.
  apply (init_keeps_checked_fields Inventory.ItemViewSet None Inventory.viewset).
  reflexivity.
Defined.

(** Construction fails with an assertion error as soon as the schema
    leaves the length of a writable string column unset, sets it to zero,
    or sets it above the length of the column. *)
Theorem init_rejects_unchecked_length (c : ViewSetClass)
    (model_arg : option ModelClass) (n : string) (f : DBField)
    (max_length : nat)
    (Hfield : (n, f) ∈ model_fields (default (class_model c) model_arg))
    (Hchar : fld_kind f = CharField max_length)
    (Hwritable : n ∈ get_writable_fields (schema c))
    (Hlength : ∀ k, get_field_max_length (schema c) n = Some k →
                    k = 0 ∨ max_length < k) :
  ∃ msg, init c model_arg = inl (AssertionError msg).
Proof.
  unfold init.
  destruct (validate_model c _) as [e|m] eqn:Hvalid.
  - unfold validate_model in Hvalid.
    repeat (case_match; simplify_eq/=; eauto).
  - assert (m = default (class_model c) model_arg) as ->.
    { unfold validate_model in Hvalid. repeat case_match; by simplify_eq. }
    destruct (proj1 (validated_fields_loop_fails c
                       (model_fields (default (class_model c) model_arg)) ∅))
      as [msg Hmsg].
    { exists n, f. split; [done|]. apply maxlength_violated_iff. eauto. }
    unfold get_validated_model_fields. rewrite Hmsg. eauto.
Qed.

Lemma init_rejects_unchecked_length_witness :
  ∃ msg, init Refusing.LongNameViewSet None = inl (AssertionError msg).
Proof.
  apply (init_rejects_unchecked_length Refusing.LongNameViewSet None
           "name" Inventory.name_field 100).
  - apply list_elem_of_further, list_elem_of_here.
  - reflexivity.
  - vm_compute. set_solver.
  - intros k Hk. right. vm_compute in Hk. injection Hk as <-. lia.
Defined.

Example init_long_name :
  init Refusing.LongNameViewSet None
  = inl (AssertionError
           "LongNameSchema.name maxlength not set or greater than DB field maxlength").
Proof. reflexivity. Qed.

(** On a constructed viewset [lookup_expr] raises nothing: it compares the
    value given with the primary key, or with the secondary lookup field,
    which is unique. *)
Theorem lookup_expr_on_constructed_viewset (c : ViewSetClass)
    (model_arg : option ModelClass) (self : GenericModelViewSet)
    (pk : PyValue)
    (Hinit : init c model_arg = inr self) :
  ∃ column,
    lookup_expr self pk = inr (ExprEq column pk)
    ∧ (column = pk_field self
       ∨ (secondary_lookup_field c = Some column ∧ fld_unique column = true)).
Proof.
  destruct (secondary_lookup_field c) as [secondary|] eqn:Hsecondary.
  - destruct (init_pk_type_choices c model_arg self secondary Hinit Hsecondary)
      as (Hcls & pk_type & other & others & Hchoices).
    assert (fld_unique secondary = true) as Hunique.
    { unfold init, validate_model in Hinit. rewrite Hsecondary in Hinit.
      repeat (case_match; simplify_eq/=; try done).
      by destruct (fld_unique secondary). }
    unfold lookup_expr. rewrite Hcls, Hsecondary, Hchoices.
    case_bool_decide; eauto.
  - assert (cls self = c) as Hcls.
    { unfold init in Hinit. repeat case_match; by simplify_eq. }
    exists (pk_field self). unfold lookup_expr. rewrite Hcls, Hsecondary. auto.
Qed.

Lemma lookup_expr_on_constructed_viewset_witness :
  ∃ column,
    lookup_expr Inventory.viewset (VStr "blue-kettle")
    = inr (ExprEq column (VStr "blue-kettle"))
    ∧ (column = pk_field Inventory.viewset
       ∨ (secondary_lookup_field Inventory.ItemViewSet = Some column
          ∧ fld_unique column = true)).
Proof.
  apply (lookup_expr_on_constructed_viewset Inventory.ItemViewSet None).
  reflexivity.
Defined.

(** ** Decoding a request body *)

Section Decoder.

Variable is_iterable : PyValue → bool.
Variable self : GenericModelViewSet.

(** The names a decoded payload may use: columns for the assignments,
    relations of the model for the relation-sync pairs. *)
Lemma decode_item_names (acc acc' : ModelData * list ModelRelation)
    (item : string * PyValue) :
  decode_item is_iterable self acc item = inr acc' →
  (∀ k, is_Some (acc.1 !! k) → is_Some (_model_fields self !! k)) →
  (∀ r, r ∈ acc.2 → ∃ name, manytomany (model self) !! name = Some r.1) →
  (∀ k, is_Some (acc'.1 !! k) → is_Some (_model_fields self !! k))
  ∧ (∀ r, r ∈ acc'.2 → ∃ name, manytomany (model self) !! name = Some r.1).
Proof.
  destruct acc as [data related], item as [key value].
  unfold decode_item. intros Hitem Hdata Hrelated.
  assert (∀ (column : string) v,
            is_Some (_model_fields self !! column) →
            ∀ k, is_Some (<[column := v]> data !! k) →
                 is_Some (_model_fields self !! k)) as Hinsert.
  { intros column v Hcolumn k Hk.
    destruct (decide (column = k)) as [<- | Hne]; [done|].
    rewrite lookup_insert_ne in Hk by done. by apply Hdata. }
  destruct (_model_fields self !! key) eqn:Hkey.
  { injection Hitem as <-. split; [|done]. apply Hinsert. by rewrite Hkey. }
  destruct (PyStr.endswith key FK_FIELD_POSTFIX).
  { destruct (_model_fields self !! PyStr.drop_last _ key) eqn:Hstem;
      injection Hitem as <-; [|done].
    split; [|done]. apply Hinsert. exact (mk_is_Some _ _ Hstem). }
  destruct (PyStr.endswith key M2M_FIELD_POSTFIX && is_iterable value);
    [|by injection Hitem as <-].
  destruct (manytomany (model self) !! PyStr.drop_last _ key) as [relation|]
    eqn:Hrelation; [|by injection Hitem as <-].
  destruct (py_set value) as [ids|]; [|done]. injection Hitem as <-.
  split; [done|]. intros r [Hr | ->%list_elem_of_singleton]%elem_of_app.
  - by apply Hrelated.
  - by eexists.
Qed.

Lemma decode_items_names (items : list (string * PyValue))
    (acc acc' : ModelData * list ModelRelation) :
  decode_items is_iterable self items acc = inr acc' →
  (∀ k, is_Some (acc.1 !! k) → is_Some (_model_fields self !! k)) →
  (∀ r, r ∈ acc.2 → ∃ name, manytomany (model self) !! name = Some r.1) →
  (∀ k, is_Some (acc'.1 !! k) → is_Some (_model_fields self !! k))
  ∧ (∀ r, r ∈ acc'.2 → ∃ name, manytomany (model self) !! name = Some r.1).
Proof.
  revert acc. induction items as [|item items IH]; intros acc Hitems Hdata Hrel.
  - simpl in Hitems. by injection Hitems as <-.
  - simpl in Hitems.
    destruct (decode_item is_iterable self acc item) as [e|acc1] eqn:Hitem;
      [done|].
    destruct (decode_item_names acc acc1 item Hitem Hdata Hrel) as [Hdata1 Hrel1].
    by apply (IH acc1).
Qed.

(** Decoding one more item, after the others. *)
Lemma decode_items_snoc (items : list (string * PyValue))
    (item : string * PyValue) (acc : ModelData * list ModelRelation) :
  decode_items is_iterable self (items ++ [item]) acc
  = match decode_items is_iterable self items acc with
    | inr acc' => decode_item is_iterable self acc' item
    | inl e => inl e
    end.
Proof.
  revert acc. induction items as [|item0 items IH]; intros acc; simpl.
  - by destruct (decode_item is_iterable self acc item).
  - destruct (decode_item is_iterable self acc item0); [done|]. apply IH.
Qed.

End Decoder.

Lemma endswith_m2m_not_fk (r : string) :
  PyStr.endswith (r +:+ M2M_FIELD_POSTFIX) FK_FIELD_POSTFIX = false.
Proof.
  unfold PyStr.endswith. rewrite chars_app, List.length_app.
  apply bool_decide_eq_false. intros [_ Hdrop].
  change (list_ascii_of_string M2M_FIELD_POSTFIX)
    with ["_"; "i"; "d"; "s"]%char in Hdrop.
  change (list_ascii_of_string FK_FIELD_POSTFIX) with ["_"; "i"; "d"]%char in Hdrop.
  simpl List.length in Hdrop.
  replace (List.length (list_ascii_of_string r) + 4 - 3)
    with (List.length (list_ascii_of_string r) + 1) in Hdrop by lia.
  rewrite drop_app_add in Hdrop. simpl in Hdrop. discriminate.
Qed.

(** A decoded payload assigns model columns only, and syncs relations of
    the model only, whatever keys the request body carries. *)
Theorem decoded_payload_names_exist (is_iterable : PyValue → bool)
    (self : GenericModelViewSet) (body : Schema) (on_create : bool)
    (data : ModelData) (related : list ModelRelation)
    (Hdecoded : serialize_request_body_for_db is_iterable self body on_create
                = inr (data, related)) :
  (∀ column, is_Some (data !! column) → is_Some (_model_fields self !! column))
  ∧ (∀ relation ids,
       (relation, ids) ∈ related →
       ∃ name, manytomany (model self) !! name = Some relation).
Proof.
  unfold serialize_request_body_for_db in Hdecoded.
  destruct (decode_items_names is_iterable self _ (∅, []) (data, related) Hdecoded)
    as [Hdata Hrelated].
  - intros k Hk. simpl in Hk. rewrite lookup_empty in Hk. by destruct Hk.
  - intros r Hr. by apply not_elem_of_nil in Hr.
  - split; [done|]. intros relation ids Hin. apply (Hrelated _ Hin).
Qed.

Lemma decoded_payload_names_exist_witness :
  (∀ column, is_Some (Requests.renamed_untagged_data !! column) →
             is_Some (_model_fields Inventory.viewset !! column))
  ∧ (∀ relation ids,
       (relation, ids) ∈ [(Inventory.tags_relation, (∅ : gset PyKey))] →
       ∃ name, manytomany (model Inventory.viewset) !! name = Some relation).
Proof.
  apply (decoded_payload_names_exist Requests.is_iterable Inventory.viewset
           Requests.renamed_untagged true).
  vm_compute. reflexivity.
Defined.

(** A body that carries one more item after those of another body is
    decoded as that body is, then the item. *)
Lemma serialize_one_more (is_iterable : PyValue → bool)
    (self : GenericModelViewSet) (body body' : Schema) (on_create : bool)
    (item : string * PyValue) (acc : ModelData * list ModelRelation) :
  dict body'
    (get_read_only_fields (schema (cls self)) ∪ {[ fld_name (pk_field self) ]})
    (negb on_create)
  = dict body
      (get_read_only_fields (schema (cls self)) ∪ {[ fld_name (pk_field self) ]})
      (negb on_create)
    ++ [item] →
  serialize_request_body_for_db is_iterable self body on_create = inr acc →
  serialize_request_body_for_db is_iterable self body' on_create
  = decode_item is_iterable self acc item.
Proof.
  unfold serialize_request_body_for_db. intros -> Hdecoded.
  by rewrite decode_items_snoc, Hdecoded.
Qed.

(** A key that is a column assigns that column; a key [f_id] that is not a
    column, when [f] is one, assigns the column [f] the value as it is.
    The assignment replaces what earlier keys assigned to the column. *)
Theorem decode_assigns_columns (is_iterable : PyValue → bool)
    (self : GenericModelViewSet) (body body' : Schema) (on_create : bool)
    (key : string) (value : PyValue)
    (data : ModelData) (related : list ModelRelation)
    (Hmore : dict body'
               (get_read_only_fields (schema (cls self))
                  ∪ {[ fld_name (pk_field self) ]})
               (negb on_create)
             = dict body
                 (get_read_only_fields (schema (cls self))
                    ∪ {[ fld_name (pk_field self) ]})
                 (negb on_create)
               ++ [(key, value)])
    (Hdecoded : serialize_request_body_for_db is_iterable self body on_create
                = inr (data, related)) :
  (is_Some (_model_fields self !! key) →
   serialize_request_body_for_db is_iterable self body' on_create
   = inr (<[key := value]> data, related))
  ∧ (∀ f, key = f +:+ FK_FIELD_POSTFIX →
          _model_fields self !! key = None →
          is_Some (_model_fields self !! f) →
          serialize_request_body_for_db is_iterable self body' on_create
          = inr (<[f := value]> data, related)).
Proof.
  rewrite (serialize_one_more _ _ _ _ _ _ _ Hmore Hdecoded).
  unfold decode_item. split.
  - by intros [column ->].
  - intros f -> -> [column Hcolumn].
    by rewrite endswith_app, drop_last_app, Hcolumn.
Qed.

Lemma decode_assigns_columns_witness :
  serialize_request_body_for_db Requests.is_iterable Inventory.viewset
    (Requests.body [("name", VStr "Pot"); ("category", VInt 1);
                    ("name", VStr "Kettle")]) false
  = inr (<["name" := VStr "Kettle"]>
           (<["category" := VInt 1]> (<["name" := VStr "Pot"]> ∅)), [])
  ∧ serialize_request_body_for_db Requests.is_iterable Inventory.viewset
      (Requests.body [("name", VStr "Pot"); ("category", VInt 1);
                      ("category_id", VInt 2)]) false
    = inr (<["category" := VInt 2]>
             (<["category" := VInt 1]> (<["name" := VStr "Pot"]> ∅)), []).
Proof.
  assert (serialize_request_body_for_db Requests.is_iterable Inventory.viewset
            (Requests.body [("name", VStr "Pot"); ("category", VInt 1)]) false
          = inr (<["category" := VInt 1]> (<["name" := VStr "Pot"]> ∅), []))
    as Hdecoded by (vm_compute; reflexivity).
  split.
  - apply (proj1 (decode_assigns_columns Requests.is_iterable Inventory.viewset
                    (Requests.body [("name", VStr "Pot"); ("category", VInt 1)])
                    (Requests.body [("name", VStr "Pot"); ("category", VInt 1);
                                    ("name", VStr "Kettle")])
                    false "name" (VStr "Kettle") _ _
                    ltac:(vm_compute; reflexivity) Hdecoded)).
    by eexists.
  - apply (proj2 (decode_assigns_columns Requests.is_iterable Inventory.viewset
                    (Requests.body [("name", VStr "Pot"); ("category", VInt 1)])
                    (Requests.body [("name", VStr "Pot"); ("category", VInt 1);
                                    ("category_id", VInt 2)])
                    false "category_id" (VInt 2) _ _
                    ltac:(vm_compute; reflexivity) Hdecoded)
             "category" eq_refl eq_refl).
    by eexists.
Defined.

(** A key [r_ids] that is not a column, when [r] is a relation and the
    value is iterable, appends the pair of that relation and the set of
    the value's elements; when the set cannot be built the decoder raises
    [TypeError]. *)
Theorem decode_syncs_relations (is_iterable : PyValue → bool)
    (self : GenericModelViewSet) (body body' : Schema) (on_create : bool)
    (r : string) (relation : ManyToManyField) (value : PyValue)
    (data : ModelData) (related : list ModelRelation)
    (Hmore : dict body'
               (get_read_only_fields (schema (cls self))
                  ∪ {[ fld_name (pk_field self) ]})
               (negb on_create)
             = dict body
                 (get_read_only_fields (schema (cls self))
                    ∪ {[ fld_name (pk_field self) ]})
                 (negb on_create)
               ++ [(r +:+ M2M_FIELD_POSTFIX, value)])
    (Hdecoded : serialize_request_body_for_db is_iterable self body on_create
                = inr (data, related))
    (Hfree : _model_fields self !! (r +:+ M2M_FIELD_POSTFIX) = None)
    (Hrelation : manytomany (model self) !! r = Some relation)
    (Hiterable : is_iterable value = true) :
  (∀ ids, py_set value = Some ids →
          serialize_request_body_for_db is_iterable self body' on_create
          = inr (data, related ++ [(relation, ids)]))
  ∧ (py_set value = None →
     serialize_request_body_for_db is_iterable self body' on_create
     = inl TypeError).
Proof.
  rewrite (serialize_one_more _ _ _ _ _ _ _ Hmore Hdecoded).
  unfold decode_item.
  rewrite Hfree, endswith_m2m_not_fk, endswith_app, Hiterable, drop_last_app,
    Hrelation. simpl.
  split; [by intros ids ->|by intros ->].
Qed.

Lemma decode_syncs_relations_witness :
  serialize_request_body_for_db Requests.is_iterable Inventory.viewset
    (Requests.body [("name", VStr "Pot");
                    ("tags_ids", VList [VInt 3; VInt 4; VInt 3])]) true
  = inr (<["name" := VStr "Pot"]> ∅,
         [(Inventory.tags_relation, {[ KInt 3; KInt 4 ]})])
  ∧ serialize_request_body_for_db Requests.is_iterable Inventory.viewset
      (Requests.body [("name", VStr "Pot");
                      ("tags_ids", VList [VInt 3; VList []])]) true
    = inl TypeError.
Proof.
  assert (serialize_request_body_for_db Requests.is_iterable Inventory.viewset
            (Requests.body [("name", VStr "Pot")]) true
          = inr (<["name" := VStr "Pot"]> ∅, []))
    as Hdecoded by (vm_compute; reflexivity).
  split.
  - apply (proj1 (decode_syncs_relations Requests.is_iterable Inventory.viewset
                    (Requests.body [("name", VStr "Pot")])
                    (Requests.body
                         [("name", VStr "Pot");
                          ("tags_ids", VList [VInt 3; VInt 4; VInt 3])])
                    true "tags" Inventory.tags_relation
                    (VList [VInt 3; VInt 4; VInt 3]) _ _
                    ltac:(vm_compute; reflexivity) Hdecoded
                    eq_refl eq_refl eq_refl)).
    vm_compute. reflexivity.
  - apply (proj2 (decode_syncs_relations Requests.is_iterable Inventory.viewset
                    (Requests.body [("name", VStr "Pot")])
                    (Requests.body
                         [("name", VStr "Pot");
                          ("tags_ids", VList [VInt 3; VList []])])
                    true "tags" Inventory.tags_relation
                    (VList [VInt 3; VList []]) _ _
                    ltac:(vm_compute; reflexivity) Hdecoded
                    eq_refl eq_refl eq_refl)).
    reflexivity.
Defined.

(** A key that is no column, whose stem without the foreign-key suffix is
    no column, and whose stem without the many-to-many suffix is no
    relation or whose value is not iterable, is dropped: nothing is
    assigned, nothing is synced, nothing is raised. *)
Theorem decode_drops_unmatched_keys (is_iterable : PyValue → bool)
    (self : GenericModelViewSet) (body body' : Schema) (on_create : bool)
    (key : string) (value : PyValue)
    (data : ModelData) (related : list ModelRelation)
    (Hmore : dict body'
               (get_read_only_fields (schema (cls self))
                  ∪ {[ fld_name (pk_field self) ]})
               (negb on_create)
             = dict body
                 (get_read_only_fields (schema (cls self))
                    ∪ {[ fld_name (pk_field self) ]})
                 (negb on_create)
               ++ [(key, value)])
    (Hdecoded : serialize_request_body_for_db is_iterable self body on_create
                = inr (data, related))
    (Hfree : _model_fields self !! key = None)
    (Hstem : _model_fields self
               !! PyStr.drop_last (String.length FK_FIELD_POSTFIX) key = None)
    (Hrelation : manytomany (model self)
                   !! PyStr.drop_last (String.length M2M_FIELD_POSTFIX) key = None
                 ∨ is_iterable value = false) :
  serialize_request_body_for_db is_iterable self body' on_create
  = inr (data, related).
Proof.
  rewrite (serialize_one_more _ _ _ _ _ _ _ Hmore Hdecoded).
  unfold decode_item. rewrite Hfree, Hstem.
  destruct (PyStr.endswith key FK_FIELD_POSTFIX); [done|].
  destruct Hrelation as [-> | ->].
  - by destruct (_ && _).
  - by rewrite andb_false_r.
Qed.

Lemma decode_drops_unmatched_keys_witness :
  serialize_request_body_for_db Requests.is_iterable Inventory.viewset
    (Requests.body [("name", VStr "Pot"); ("tags_ids", VInt 3)]) true
  = inr (<["name" := VStr "Pot"]> ∅, [])
  ∧ serialize_request_body_for_db Requests.is_iterable Inventory.viewset
      (Requests.body [("name", VStr "Pot"); ("owner_id", VInt 3)]) true
    = inr (<["name" := VStr "Pot"]> ∅, []).
Proof.
  assert (serialize_request_body_for_db Requests.is_iterable Inventory.viewset
            (Requests.body [("name", VStr "Pot")]) true
          = inr (<["name" := VStr "Pot"]> ∅, []))
    as Hdecoded by (vm_compute; reflexivity).
  split.
  - apply (decode_drops_unmatched_keys Requests.is_iterable Inventory.viewset
             (Requests.body [("name", VStr "Pot")])
             (Requests.body [("name", VStr "Pot"); ("tags_ids", VInt 3)])
             true "tags_ids" (VInt 3) _ _
             ltac:(vm_compute; reflexivity) Hdecoded eq_refl eq_refl).
    right. reflexivity.
  - apply (decode_drops_unmatched_keys Requests.is_iterable Inventory.viewset
             (Requests.body [("name", VStr "Pot")])
             (Requests.body [("name", VStr "Pot"); ("owner_id", VInt 3)])
             true "owner_id" (VInt 3) _ _
             ltac:(vm_compute; reflexivity) Hdecoded eq_refl eq_refl).
    left. reflexivity.
Defined.

(** ** Outcomes of the orchestrators *)

Section Outcomes.

Variable storage : Storage.

(** The loop of [create] over the relation-sync pairs: it writes the pairs
    with a non-empty set, in order, and stops at the first write that
    raises. *)
Lemma create_relations_trace (pk : PyValue) (related : list ModelRelation)
    (tr : Trace) :
  ∃ written result,
    for_each related
      (λ '(field, ids),
         if decide (ids = ∅) then ret () else set_related storage pk field ids) tr
    = (result, tr ++ relation_writes pk written)
    ∧ written `prefix_of` filter (λ r, r.2 ≠ ∅) related
    ∧ ((result = inr () ∧ written = filter (λ r, r.2 ≠ ∅) related)
       ∨ ∃ e, result = inl (UnhandledDbError e)).
Proof.
  revert tr. induction related as [|[field ids] related IH]; intros tr.
  - exists [], (inr ()). simpl. unfold ret. rewrite app_nil_r. auto.
  - cbn [for_each]. unfold bind at 1. rewrite filter_cons. cbn [snd].
    destruct (decide (ids = ∅)) as [Hempty | Hne].
    + rewrite decide_False by (by intros []). unfold ret at 1. apply IH.
    + rewrite decide_True by done.
      destruct (IH (tr ++ [SetRelated pk field ids]))
        as (written & result & Hrun & Hprefix & Hres).
      unfold set_related at 1, storage_call at 1.
      destruct (on_set_related storage tr pk field ids) as [e|[]].
      * exists [(field, ids)], (inl (UnhandledDbError e)).
        split; [done|]. split; [apply prefix_cons, prefix_nil|].
        right. by exists e.
      * exists ((field, ids) :: written), result. rewrite Hrun.
        simpl. rewrite <- app_assoc. split; [done|].
        split; [by apply prefix_cons|].
        destruct Hres as [[-> ->] | Herr]; [left | right]; done.
Qed.

(** Setting the prefetched attributes on a fetched row. *)
Lemma setattr_related (related : list (string * PyValue)) (obj : ModelObj) :
  let obj' :=
    foldl (λ obj '(attr_name, items), setattr obj attr_name items) obj related in
  obj_pk obj' = obj_pk obj
  ∧ (∀ attr, attr ∉ related.*1 → obj_attrs obj' !! attr = obj_attrs obj !! attr)
  ∧ (NoDup related.*1 →
     ∀ attr items, (attr, items) ∈ related → obj_attrs obj' !! attr = Some items).
Proof.
  revert obj. induction related as [|[attr0 items0] related IH]; intros obj.
  - simpl. split; [done|]. split; [done|].
    intros _ attr items Hin. by apply not_elem_of_nil in Hin.
  - cbn [foldl]. destruct (IH (setattr obj attr0 items0)) as (Hpk & Hother & Hset).
    cbn zeta. rewrite fmap_cons. cbn [fst].
    split; [by rewrite Hpk|]. split.
    + intros attr Hattr. apply not_elem_of_cons in Hattr as [Hne Hattr].
      rewrite (Hother attr Hattr). unfold setattr; simpl.
      by rewrite lookup_insert_ne.
    + intros [Hfresh Hnodup]%NoDup_cons attr items Hin.
      apply elem_of_cons in Hin as [[= -> ->] | Hin].
      * rewrite (Hother attr0 Hfresh). unfold setattr; simpl.
        by rewrite lookup_insert_eq.
      * by apply Hset.
Qed.

End Outcomes.

(** Once the body decodes to column assignments, [create] starts with the
    insert of those assignments. When the insert raises, or returns no
    key, nothing else is called: the storage exception leaves through the
    error handler, the missing key is a [ServerError]. When it returns a
    key, the relation writes that follow are on that key, for pairs with a
    non-empty set only and in their order; a write that raises ends the
    request with the row inserted and the earlier pairs written. *)
Theorem create_outcomes (storage : Storage) (is_iterable : PyValue → bool)
    (self : GenericModelViewSet) (body : Schema)
    (data : ModelData) (related : list ModelRelation) (tr : Trace)
    (Hdecoded : serialize_request_body_for_db is_iterable self body true
                = inr (data, related))
    (Hdata : data ≠ ∅) :
  let query := insert (model_name (model self)) data in
  (∀ e, on_execute storage tr query = inl e →
        create storage is_iterable self body tr
        = (inl (HandledDbError e), tr ++ [Execute query]))
  ∧ (∀ pk, on_execute storage tr query = inr pk → py_truthy pk = false →
           create storage is_iterable self body tr
           = (inl (ServerError (_component_title (cls self) +:+ " not created")),
              tr ++ [Execute query]))
  ∧ (∀ pk, on_execute storage tr query = inr pk → py_truthy pk = true →
           ∃ written result,
             create storage is_iterable self body tr
             = (result, tr ++ Execute query :: relation_writes pk written)
             ∧ written `prefix_of` filter (λ r, r.2 ≠ ∅) related
             ∧ ((result = inr pk ∧ written = filter (λ r, r.2 ≠ ∅) related)
                ∨ ∃ e, result = inl (HandledDbError e))).
Proof.
  intros query.
  split; [|split].
  - intros e Hinsert. unfold create, bind, lift. rewrite Hdecoded.
    rewrite decide_False by done.
    unfold db_errors_handler at 1, perform_create, manager_execute, storage_call.
    fold query. by rewrite Hinsert.
  - intros pk Hinsert Hkey. unfold create, bind, lift. rewrite Hdecoded.
    rewrite decide_False by done.
    unfold db_errors_handler at 1, perform_create, manager_execute, storage_call.
    fold query. by rewrite Hinsert, Hkey.
  - intros pk Hinsert Hkey. unfold create, bind, lift. rewrite Hdecoded.
    rewrite decide_False by done.
    unfold db_errors_handler at 1, perform_create, manager_execute, storage_call.
    fold query. rewrite Hinsert, Hkey. simpl. unfold db_errors_handler.
    destruct (create_relations_trace storage pk related (tr ++ [Execute query]))
      as (written & result & -> & Hprefix & [[-> ->] | [e ->]]).
    + exists (filter (λ r, r.2 ≠ ∅) related), (inr pk).
      unfold ret. rewrite <- app_assoc. auto.
    + exists written, (inl (HandledDbError e)). rewrite <- app_assoc.
      split; [done|]. split; [done|]. right. by exists e.
Qed.

Lemma create_outcomes_witness :
  create Refusing.broken Requests.is_iterable Inventory.viewset
    (Requests.body [("name", VStr "Kettle"); ("tags_ids", VList [VInt 3])]) []
  = (inl (HandledDbError (DatabaseError "connection lost")),
     [Execute (insert "Item" (<["name" := VStr "Kettle"]> ∅))])
  ∧ create Refusing.empty_handed Requests.is_iterable Inventory.viewset
      (Requests.body [("name", VStr "Kettle"); ("tags_ids", VList [VInt 3])]) []
    = (inl (ServerError "Item not created"),
       [Execute (insert "Item" (<["name" := VStr "Kettle"]> ∅))])
  ∧ ∃ written result,
      create Refusing.no_relations Requests.is_iterable Inventory.viewset
        (Requests.body [("name", VStr "Kettle"); ("tags_ids", VList [VInt 3])]) []
      = (result,
         [] ++ Execute (insert "Item" (<["name" := VStr "Kettle"]> ∅))
            :: relation_writes (VInt 1) written)
      ∧ written `prefix_of`
          filter (λ r, r.2 ≠ ∅) [(Inventory.tags_relation, {[ KInt 3 ]})]
      ∧ ((result = inr (VInt 1)
          ∧ written
            = filter (λ r, r.2 ≠ ∅) [(Inventory.tags_relation, {[ KInt 3 ]})])
         ∨ ∃ e, result = inl (HandledDbError e)).
Proof.
  assert (serialize_request_body_for_db Requests.is_iterable Inventory.viewset
            (Requests.body [("name", VStr "Kettle"); ("tags_ids", VList [VInt 3])]) true
          = inr (<["name" := VStr "Kettle"]> ∅,
                 [(Inventory.tags_relation, {[ KInt 3 ]})]))
    as Hdecoded by (vm_compute; reflexivity).
  split; [|split].
  - apply (proj1 (create_outcomes Refusing.broken Requests.is_iterable
                    Inventory.viewset _ _ _ [] Hdecoded
                    (insert_non_empty _ _ _))
             (DatabaseError "connection lost") eq_refl).
  - apply (proj1 (proj2 (create_outcomes Refusing.empty_handed
                           Requests.is_iterable Inventory.viewset _ _ _ []
                           Hdecoded (insert_non_empty _ _ _)))
             (VInt 0) eq_refl eq_refl).
  - apply (proj2 (proj2 (create_outcomes Refusing.no_relations
                           Requests.is_iterable Inventory.viewset _ _ _ []
                           Hdecoded (insert_non_empty _ _ _)))
             (VInt 1) eq_refl eq_refl).
Defined.

Example create_is_not_atomic :
  create Refusing.no_relations Requests.is_iterable Inventory.viewset
    (Requests.body [("name", VStr "Kettle"); ("tags_ids", VList [VInt 3])]) []
  = (inl (HandledDbError (DatabaseError "no such table")),
     [Execute (insert "Item" (<["name" := VStr "Kettle"]> ∅));
      SetRelated (VInt 1) Inventory.tags_relation {[ KInt 3 ]}]).
Proof. vm_compute. reflexivity. Qed.

(** Once the body decodes to column assignments, [update] starts with an
    UPDATE of those assignments restricted by the lookup predicate. When
    it raises, or reports no row, no relation is written: the storage
    exception leaves through the error handler, the missing row is a
    [ServerError]. Otherwise the relation writes follow, on the key given,
    in the order of the pairs; a write that raises ends the request with
    the row updated and the earlier pairs written. *)
Theorem update_outcomes (storage : Storage) (is_iterable : PyValue → bool)
    (self : GenericModelViewSet) (pk : PyValue) (body : Schema)
    (data : ModelData) (related : list ModelRelation) (expr : Expression)
    (tr : Trace)
    (Hdecoded : serialize_request_body_for_db is_iterable self body false
                = inr (data, related))
    (Hdata : data ≠ ∅)
    (Hlookup : lookup_expr self pk = inr expr) :
  let query := where_ (update_query (model_name (model self)) data) [expr] in
  (∀ e, on_execute storage tr query = inl e →
        update storage is_iterable self pk body tr
        = (inl (HandledDbError e), tr ++ [Execute query]))
  ∧ (∀ updated,
       on_execute storage tr query = inr updated → py_truthy updated = false →
       update storage is_iterable self pk body tr
       = (inl (ServerError (_component_title (cls self) +:+ " not updated")),
          tr ++ [Execute query]))
  ∧ (∀ updated,
       on_execute storage tr query = inr updated → py_truthy updated = true →
       ∃ n result,
         update storage is_iterable self pk body tr
         = (result, tr ++ Execute query :: relation_writes pk (take n related))
         ∧ ((result = inr pk ∧ n = List.length related)
            ∨ ∃ e, result = inl (HandledDbError e))).
Proof.
  intros query.
  assert (perform_update storage self pk data tr
          = storage_call (Execute query) (λ tr, on_execute storage tr query) tr)
    as Hperform.
  { unfold perform_update, bind, lift. by rewrite Hlookup. }
  split; [|split].
  - intros e Hupdate. unfold update, bind, lift. rewrite Hdecoded.
    rewrite decide_False by done.
    unfold db_errors_handler at 1. rewrite Hperform. unfold storage_call.
    by rewrite Hupdate.
  - intros updated Hupdate Hrows. unfold update, bind, lift. rewrite Hdecoded.
    rewrite decide_False by done.
    unfold db_errors_handler at 1. rewrite Hperform. unfold storage_call.
    by rewrite Hupdate, Hrows.
  - intros updated Hupdate Hrows. unfold update, bind, lift. rewrite Hdecoded.
    rewrite decide_False by done.
    unfold db_errors_handler at 1. rewrite Hperform. unfold storage_call at 1.
    rewrite Hupdate, Hrows. simpl. unfold db_errors_handler.
    destruct (update_relations_trace storage pk related (tr ++ [Execute query]))
      as (n & result & -> & Hn & [[-> ->] | [e ->]]).
    + exists (List.length related), (inr pk). unfold ret.
      rewrite <- app_assoc. auto.
    + exists n, (inl (HandledDbError e)). rewrite <- app_assoc.
      split; [done|]. right. by exists e.
Qed.

Lemma update_outcomes_witness :
  update Refusing.broken Requests.is_iterable Inventory.viewset
    (VStr "blue-kettle") Requests.renamed_untagged []
  = (inl (HandledDbError (DatabaseError "connection lost")),
     [Execute (where_ (update_query "Item" Requests.renamed_untagged_data)
                 [ExprEq Inventory.slug_field (VStr "blue-kettle")])])
  ∧ update Refusing.empty_handed Requests.is_iterable Inventory.viewset
      (VStr "blue-kettle") Requests.renamed_untagged []
    = (inl (ServerError "Item not updated"),
       [Execute (where_ (update_query "Item" Requests.renamed_untagged_data)
                 [ExprEq Inventory.slug_field (VStr "blue-kettle")])])
  ∧ ∃ n result,
      update Refusing.no_relations Requests.is_iterable Inventory.viewset
        (VStr "blue-kettle") Requests.renamed_untagged []
      = (result,
         [] ++ Execute (where_ (update_query "Item" Requests.renamed_untagged_data)
                 [ExprEq Inventory.slug_field (VStr "blue-kettle")])
            :: relation_writes (VStr "blue-kettle")
                 (take n [(Inventory.tags_relation, (∅ : gset PyKey))]))
      ∧ ((result = inr (VStr "blue-kettle")
          ∧ n = List.length [(Inventory.tags_relation, (∅ : gset PyKey))])
         ∨ ∃ e, result = inl (HandledDbError e)).
Proof.
  assert (serialize_request_body_for_db Requests.is_iterable Inventory.viewset
            Requests.renamed_untagged false
          = inr (Requests.renamed_untagged_data, [(Inventory.tags_relation, ∅)]))
    as Hdecoded by (vm_compute; reflexivity).
  split; [|split].
  - apply (proj1 (update_outcomes Refusing.broken Requests.is_iterable
                    Inventory.viewset (VStr "blue-kettle") _ _ _ _ []
                    Hdecoded (insert_non_empty _ _ _) eq_refl)
             (DatabaseError "connection lost") eq_refl).
  - apply (proj1 (proj2 (update_outcomes Refusing.empty_handed
                           Requests.is_iterable Inventory.viewset
                           (VStr "blue-kettle") _ _ _ _ []
                           Hdecoded (insert_non_empty _ _ _) eq_refl))
             (VInt 0) eq_refl eq_refl).
  - apply (proj2 (proj2 (update_outcomes Refusing.no_relations
                           Requests.is_iterable Inventory.viewset
                           (VStr "blue-kettle") _ _ _ _ []
                           Hdecoded (insert_non_empty _ _ _) eq_refl))
             (VInt 1) eq_refl eq_refl).
Defined.

(** [destroy] makes one call, a DELETE restricted by the lookup predicate,
    and nothing else. A storage exception leaves as it is, no error
    handler being installed here; no row deleted is a [ServerError]. *)
Theorem destroy_outcomes (storage : Storage) (self : GenericModelViewSet)
    (pk : PyValue) (expr : Expression) (tr : Trace)
    (Hlookup : lookup_expr self pk = inr expr) :
  let query := where_ (delete_query (model_name (model self))) [expr] in
  (∀ e, on_execute storage tr query = inl e →
        destroy storage self pk tr
        = (inl (UnhandledDbError e), tr ++ [Execute query]))
  ∧ (∀ deleted,
       on_execute storage tr query = inr deleted → py_truthy deleted = false →
       destroy storage self pk tr
       = (inl (ServerError (_component_title (cls self) +:+ " not deleted")),
          tr ++ [Execute query]))
  ∧ (∀ deleted,
       on_execute storage tr query = inr deleted → py_truthy deleted = true →
       destroy storage self pk tr = (inr (), tr ++ [Execute query])).
Proof.
  intros query.
  assert (perform_destroy storage self pk tr
          = storage_call (Execute query) (λ tr, on_execute storage tr query) tr)
    as Hperform.
  { unfold perform_destroy, bind, lift. by rewrite Hlookup. }
  unfold destroy, bind. rewrite Hperform. unfold storage_call.
  split; [|split].
  - by intros e ->.
  - by intros deleted -> ->.
  - by intros deleted -> ->.
Qed.

Lemma destroy_outcomes_witness :
  destroy Refusing.broken Inventory.viewset (VInt 7) []
  = (inl (UnhandledDbError (DatabaseError "connection lost")),
     [Execute (where_ (delete_query "Item") [ExprEq Inventory.id_field (VInt 7)])])
  ∧ destroy Refusing.empty_handed Inventory.viewset (VInt 7) []
    = (inl (ServerError "Item not deleted"),
       [Execute (where_ (delete_query "Item")
                   [ExprEq Inventory.id_field (VInt 7)])])
  ∧ destroy Requests.accepting Inventory.viewset (VStr "blue-kettle") []
    = (inr (),
       [Execute (where_ (delete_query "Item")
                   [ExprEq Inventory.slug_field (VStr "blue-kettle")])]).
Proof.
  split; [|split].
  - apply (proj1 (destroy_outcomes Refusing.broken Inventory.viewset (VInt 7)
                    _ [] eq_refl)
             (DatabaseError "connection lost") eq_refl).
  - apply (proj1 (proj2 (destroy_outcomes Refusing.empty_handed
                           Inventory.viewset (VInt 7) _ [] eq_refl))
             (VInt 0) eq_refl eq_refl).
  - apply (proj2 (proj2 (destroy_outcomes Requests.accepting Inventory.viewset
                           (VStr "blue-kettle") _ [] eq_refl))
             (VInt 1) eq_refl eq_refl).
Defined.

(** When the planner gives a base query for the requested fields,
    [get_object_or_404] fetches it, restricted by the lookup predicate. No
    row is [NotFound], with the component's name; another storage
    exception leaves as it is; and a row fetched for a request that names
    no relation is returned as fetched, with no second call. When the
    planner raises, so does [get_object_or_404], before any call. *)
Theorem get_object_or_404_outcomes (storage : Storage)
    (self : GenericModelViewSet) (pk : PyValue)
    (fields : ResponseFieldsDict) (base : Query) (expr : Expression)
    (tr : Trace)
    (Hbase : get_base_query self fields = inr base)
    (Hlookup : lookup_expr self pk = inr expr) :
  let query := where_ base [expr] in
  (on_get storage tr query = inl DoesNotExist →
   get_object_or_404 storage self pk (Some fields) tr
   = (inl (NotFound (_component_title (cls self) +:+ " not found")),
      tr ++ [Get query]))
  ∧ (∀ detail,
       on_get storage tr query = inl (DatabaseError detail) →
       get_object_or_404 storage self pk (Some fields) tr
       = (inl (UnhandledDbError (DatabaseError detail)), tr ++ [Get query]))
  ∧ (∀ obj,
       on_get storage tr query = inr obj →
       build_prefetch_config self fields = [] →
       get_object_or_404 storage self pk (Some fields) tr
       = (inr obj, tr ++ [Get query])).
Proof.
  intros query. unfold get_object_or_404, bind, lift.
  change (default [] (Some fields)) with fields.
  rewrite Hbase, Hlookup. simpl.
  change (apply_query_filters self base None) with base.
  fold query. unfold manager_get, storage_call.
  split; [|split].
  - by intros ->.
  - by intros detail ->.
  - by intros obj -> ->.
Qed.

Lemma get_object_or_404_outcomes_witness :
  get_object_or_404 Refusing.empty_handed Inventory.viewset (VInt 7)
    (Some ["name"]) []
  = (inl (NotFound "Item not found"),
     [Get (where_ (select "Item" {[ SelField Inventory.name_field ]})
             [ExprEq Inventory.id_field (VInt 7)])])
  ∧ get_object_or_404 Refusing.broken Inventory.viewset (VInt 7)
      (Some ["name"]) []
    = (inl (UnhandledDbError (DatabaseError "connection lost")),
       [Get (where_ (select "Item" {[ SelField Inventory.name_field ]})
               [ExprEq Inventory.id_field (VInt 7)])])
  ∧ get_object_or_404 Requests.accepting Inventory.viewset (VInt 7)
      (Some ["name"]) []
    = (inr {| obj_pk := VInt 1; obj_attrs := ∅ |},
       [Get (where_ (select "Item" {[ SelField Inventory.name_field ]})
               [ExprEq Inventory.id_field (VInt 7)])]).
Proof.
  split; [|split].
  - apply (proj1 (get_object_or_404_outcomes Refusing.empty_handed
                    Inventory.viewset (VInt 7) ["name"] _ _ []
                    base_query_name eq_refl)
             eq_refl).
  - apply (proj1 (proj2 (get_object_or_404_outcomes Refusing.broken
                           Inventory.viewset (VInt 7) ["name"] _ _ []
                           base_query_name eq_refl))
             "connection lost" eq_refl).
  - apply (proj2 (proj2 (get_object_or_404_outcomes Requests.accepting
                           Inventory.viewset (VInt 7) ["name"] _ _ []
                           base_query_name eq_refl))
             {| obj_pk := VInt 1; obj_attrs := ∅ |} eq_refl eq_refl).
Defined.

(** The planner raising, nothing is fetched. *)
Example get_object_or_404_without_query :
  get_object_or_404 Requests.accepting Ambiguous.viewset (VInt 7)
    (Some ["title"; "author"]) []
  = (inl ValueError, []).
Proof. vm_compute. reflexivity. Qed.

(** When the request names relations, the row fetched is completed by one
    second call, keyed by the primary key of the row (not by the value
    looked up) and carrying the prefetch plan. What that call returns is
    set on the row under the attribute names given, the other attributes
    and the key being left as fetched; what it raises leaves as it is. *)
Theorem get_object_or_404_prefetches (storage : Storage)
    (self : GenericModelViewSet) (pk : PyValue)
    (fields : ResponseFieldsDict) (base : Query) (expr : Expression)
    (tr : Trace) (obj : ModelObj)
    (Hbase : get_base_query self fields = inr base)
    (Hlookup : lookup_expr self pk = inr expr)
    (Hfound : on_get storage tr (where_ base [expr]) = inr obj)
    (Hplan : build_prefetch_config self fields ≠ []) :
  let calls :=
    [Get (where_ base [expr]);
     GetRelated (obj_pk obj) (build_prefetch_config self fields)] in
  (∀ e,
     on_get_related storage (tr ++ [Get (where_ base [expr])])
       (obj_pk obj) (build_prefetch_config self fields) = inl e →
     get_object_or_404 storage self pk (Some fields) tr
     = (inl (UnhandledDbError e), tr ++ calls))
  ∧ (∀ related,
       on_get_related storage (tr ++ [Get (where_ base [expr])])
         (obj_pk obj) (build_prefetch_config self fields) = inr related →
       ∃ obj',
         get_object_or_404 storage self pk (Some fields) tr
         = (inr obj', tr ++ calls)
         ∧ obj_pk obj' = obj_pk obj
         ∧ (∀ attr, attr ∉ related.*1 →
                    obj_attrs obj' !! attr = obj_attrs obj !! attr)
         ∧ (NoDup related.*1 →
            ∀ attr items, (attr, items) ∈ related →
                          obj_attrs obj' !! attr = Some items)).
Proof.
  intros calls.
  assert (∀ query, apply_query_filters self query None = query) as Hnone by done.
  destruct (build_prefetch_config self fields) as [|p config] eqn:Hconfig;
    [done|].
  split; [intros e Hrelated | intros related Hrelated; eexists];
    unfold get_object_or_404, bind, lift;
    change (default [] (Some fields)) with fields;
    rewrite Hbase, Hlookup;
    cbv beta iota zeta;
    rewrite !Hnone; unfold manager_get, storage_call at 1;
    rewrite Hfound, Hconfig; cbv beta iota;
    unfold get_related, storage_call, ret; rewrite Hrelated, <- app_assoc.
  - done.
  - split; [done|]. apply setattr_related.
Qed.

Lemma get_object_or_404_prefetches_witness :
  ∃ obj',
    get_object_or_404 Refusing.tagged Inventory.viewset (VStr "blue-kettle")
      (Some ["name"; "tags_ids"]) []
    = (inr obj',
       [] ++ [Get (where_ (select "Item" {[ SelField Inventory.name_field ]})
                     [ExprEq Inventory.slug_field (VStr "blue-kettle")]);
              GetRelated (obj_pk {| obj_pk := VInt 11; obj_attrs := ∅ |})
                (build_prefetch_config Inventory.viewset ["name"; "tags_ids"])])
    ∧ obj_pk obj' = obj_pk {| obj_pk := VInt 11; obj_attrs := ∅ |}
    ∧ (∀ attr, attr ∉ [("tags_ids", VList [VInt 3; VInt 4])].*1 →
               obj_attrs obj' !! attr
               = obj_attrs {| obj_pk := VInt 11; obj_attrs := ∅ |} !! attr)
    ∧ (NoDup [("tags_ids", VList [VInt 3; VInt 4])].*1 →
       ∀ attr items, (attr, items) ∈ [("tags_ids", VList [VInt 3; VInt 4])] →
                     obj_attrs obj' !! attr = Some items).
Proof.
  assert (get_base_query Inventory.viewset ["name"; "tags_ids"]
          = inr (select "Item" {[ SelField Inventory.name_field ]}))
    as Hbase by (vm_compute; reflexivity).
  apply (proj2 (get_object_or_404_prefetches Refusing.tagged Inventory.viewset
                  (VStr "blue-kettle") ["name"; "tags_ids"] _
                  (ExprEq Inventory.slug_field (VStr "blue-kettle")) []
                  {| obj_pk := VInt 11; obj_attrs := ∅ |}
                  Hbase eq_refl eq_refl ltac:(discriminate))
           [("tags_ids", VList [VInt 3; VInt 4])] eq_refl).
Defined.

Example retrieve_by_slug_prefetches_by_key :
  get_object_or_404 Refusing.tagged Inventory.viewset (VStr "blue-kettle")
    (Some ["name"; "tags_ids"]) []
  = (inr {| obj_pk := VInt 11;
            obj_attrs := {[ "tags_ids" := VList [VInt 3; VInt 4] ]} |},
     [Get (where_ (select "Item" {[ SelField Inventory.name_field ]})
             [ExprEq Inventory.slug_field (VStr "blue-kettle")]);
      GetRelated (VInt 11)
        [ {| field := Inventory.tags_relation; attr_name := "tags_ids";
             ids_only := true |} ]]).
Proof. vm_compute. reflexivity. Qed.

(** ** Writing, then reading back *)

Section ReadBack.

Variable storage : Storage.
Variable is_iterable : PyValue → bool.
Variable self : GenericModelViewSet.

Hypothesis relation_writes_succeed :
  ∀ tr pk field ids, on_set_related storage tr pk field ids = inr ().

Lemma create_succeeds (body : Schema) (data : ModelData)
    (related : list ModelRelation) (new_pk : PyValue) (tr : Trace) :
  serialize_request_body_for_db is_iterable self body true = inr (data, related) →
  data ≠ ∅ →
  on_execute storage tr (insert (model_name (model self)) data) = inr new_pk →
  py_truthy new_pk = true →
  create storage is_iterable self body tr
  = (inr new_pk,
     tr ++ Execute (insert (model_name (model self)) data)
        :: relation_writes new_pk (filter (λ r, r.2 ≠ ∅) related)).
Proof.
  intros Hdecoded Hdata Hinsert Hkey.
  unfold create, bind, lift. rewrite Hdecoded. rewrite decide_False by done.
  unfold db_errors_handler at 1, perform_create, manager_execute, storage_call.
  rewrite Hinsert, Hkey. simpl.
  unfold db_errors_handler.
  rewrite create_relations_ok by (intros; apply relation_writes_succeed).
  unfold ret. by rewrite <- app_assoc.
Qed.

Lemma update_succeeds (pk : PyValue) (body : Schema) (data : ModelData)
    (related : list ModelRelation) (expr : Expression) (updated : PyValue)
    (tr : Trace) :
  serialize_request_body_for_db is_iterable self body false = inr (data, related) →
  data ≠ ∅ →
  lookup_expr self pk = inr expr →
  on_execute storage tr
    (where_ (update_query (model_name (model self)) data) [expr]) = inr updated →
  py_truthy updated = true →
  update storage is_iterable self pk body tr
  = (inr pk,
     tr ++ Execute (where_ (update_query (model_name (model self)) data) [expr])
        :: relation_writes pk related).
Proof.
  intros Hdecoded Hdata Hexpr Hupdate Hrows.
  unfold update, bind, lift. rewrite Hdecoded. rewrite decide_False by done.
  unfold db_errors_handler at 1, perform_update, bind, lift.
  rewrite Hexpr.
  change (apply_query_filters self
            (update_query (model_name (model self)) data) None)
    with (update_query (model_name (model self)) data).
  unfold manager_execute, storage_call. rewrite Hupdate, Hrows. simpl.
  unfold db_errors_handler.
  rewrite update_relations_ok by (intros; apply relation_writes_succeed).
  unfold ret. by rewrite <- app_assoc.
Qed.

End ReadBack.

(** After a successful [create] the dispatcher reads the new row back: it
    looks it up by the key the insert returned and asks for the full
    response field set, whatever the request carried. *)
Theorem create_then_read_back (storage : Storage)
    (is_iterable : PyValue → bool) (self : GenericModelViewSet)
    (body : Schema) (data : ModelData) (related : list ModelRelation)
    (new_pk : PyValue) (base : Query) (expr : Expression) (tr : Trace)
    (Hwrites : ∀ tr pk field ids,
                 on_set_related storage tr pk field ids = inr ())
    (Hdecoded : serialize_request_body_for_db is_iterable self body true
                = inr (data, related))
    (Hdata : data ≠ ∅)
    (Hinsert : on_execute storage tr (insert (model_name (model self)) data)
               = inr new_pk)
    (Hkey : py_truthy new_pk = true)
    (Hbase : get_base_query self (_response_fields_full_config (cls self))
             = inr base)
    (Hlookup : lookup_expr self new_pk = inr expr) :
  ∃ result later,
    perform_api_action_create storage is_iterable self body tr
    = (result,
       tr ++ Execute (insert (model_name (model self)) data)
          :: relation_writes new_pk (filter (λ r, r.2 ≠ ∅) related)
          ++ Get (where_ base [expr])
          :: later).
Proof.
  unfold perform_api_action_create, generic_perform_api_action, bind.
  rewrite (create_succeeds storage is_iterable self Hwrites body data related
             new_pk tr Hdecoded Hdata Hinsert Hkey).
  destruct (get_object_or_404_fetches storage self new_pk
              (_response_fields_full_config (cls self)) base expr
              (tr ++ Execute (insert (model_name (model self)) data)
                  :: relation_writes new_pk (filter (λ r, r.2 ≠ ∅) related))
              Hbase Hlookup)
    as (result & later & ->).
  exists result, later. by rewrite <- app_assoc.
Qed.

Lemma create_then_read_back_witness :
  ∃ result later,
    perform_api_action_create Requests.accepting Requests.is_iterable
      Inventory.viewset Requests.renamed_untagged []
    = (result,
       [] ++ Execute (insert (model_name (model Inventory.viewset))
                        Requests.renamed_untagged_data)
          :: relation_writes (VInt 1)
               (filter (λ r, r.2 ≠ ∅) [(Inventory.tags_relation, (∅ : gset PyKey))])
          ++ Get (where_
                    (select "Item"
                       {[ SelField Inventory.id_field;
                          SelField Inventory.name_field;
                          SelField Inventory.slug_field;
                          SelField Inventory.category_field ]})
                    [ExprEq Inventory.id_field (VInt 1)])
          :: later).
Proof.
  assert (serialize_request_body_for_db Requests.is_iterable Inventory.viewset
            Requests.renamed_untagged true
          = inr (Requests.renamed_untagged_data, [(Inventory.tags_relation, ∅)]))
    as Hdecoded by (vm_compute; reflexivity).
  apply (create_then_read_back Requests.accepting Requests.is_iterable
           Inventory.viewset Requests.renamed_untagged _ _ (VInt 1) _ _ []
           (λ _ _ _ _, eq_refl) Hdecoded (insert_non_empty _ _ _)
           eq_refl eq_refl inventory_full_query eq_refl).
Defined.

(** After a successful [update] of columns the dispatcher reads the row
    back under the predicate the UPDATE was restricted by, built from the
    key as it was supplied, and asks for the full response field set. *)
Theorem update_then_read_back (storage : Storage)
    (is_iterable : PyValue → bool) (self : GenericModelViewSet)
    (pk : PyValue) (body : Schema) (data : ModelData)
    (related : list ModelRelation) (base : Query) (expr : Expression)
    (updated : PyValue) (tr : Trace)
    (Hwrites : ∀ tr pk field ids,
                 on_set_related storage tr pk field ids = inr ())
    (Hdecoded : serialize_request_body_for_db is_iterable self body false
                = inr (data, related))
    (Hdata : data ≠ ∅)
    (Hlookup : lookup_expr self pk = inr expr)
    (Hupdate : on_execute storage tr
                 (where_ (update_query (model_name (model self)) data) [expr])
               = inr updated)
    (Hrows : py_truthy updated = true)
    (Hbase : get_base_query self (_response_fields_full_config (cls self))
             = inr base) :
  ∃ result later,
    perform_api_action_update storage is_iterable self pk body tr
    = (result,
       tr ++ Execute (where_ (update_query (model_name (model self)) data) [expr])
          :: relation_writes pk related
          ++ Get (where_ base [expr])
          :: later).
Proof.
  unfold perform_api_action_update, generic_perform_api_action, bind.
  rewrite (update_succeeds storage is_iterable self Hwrites pk body data related
             expr updated tr Hdecoded Hdata Hlookup Hupdate Hrows).
  destruct (get_object_or_404_fetches storage self pk
              (_response_fields_full_config (cls self)) base expr
              (tr ++ Execute (where_ (update_query (model_name (model self)) data)
                                [expr])
                  :: relation_writes pk related)
              Hbase Hlookup)
    as (result & later & ->).
  exists result, later. by rewrite <- app_assoc.
Qed.

Lemma update_then_read_back_witness :
  ∃ result later,
    perform_api_action_update Requests.accepting Requests.is_iterable
      Inventory.viewset (VStr "blue-kettle") Requests.renamed_untagged []
    = (result,
       [] ++ Execute (where_ (update_query (model_name (model Inventory.viewset))
                                Requests.renamed_untagged_data)
                        [ExprEq Inventory.slug_field (VStr "blue-kettle")])
          :: relation_writes (VStr "blue-kettle")
               [(Inventory.tags_relation, (∅ : gset PyKey))]
          ++ Get (where_
                    (select "Item"
                       {[ SelField Inventory.id_field;
                          SelField Inventory.name_field;
                          SelField Inventory.slug_field;
                          SelField Inventory.category_field ]})
                    [ExprEq Inventory.slug_field (VStr "blue-kettle")])
          :: later).
Proof.
  assert (serialize_request_body_for_db Requests.is_iterable Inventory.viewset
            Requests.renamed_untagged false
          = inr (Requests.renamed_untagged_data, [(Inventory.tags_relation, ∅)]))
    as Hdecoded by (vm_compute; reflexivity).
  apply (update_then_read_back Requests.accepting Requests.is_iterable
           Inventory.viewset (VStr "blue-kettle") Requests.renamed_untagged
           _ _ _ _ (VInt 1) []
           (λ _ _ _ _, eq_refl) Hdecoded (insert_non_empty _ _ _)
           eq_refl eq_refl eq_refl inventory_full_query).
Defined.
